(** * secbot: the alert aggregation pipeline and the recipient registry

    A shallow embedding of [github_client.py] (repository listing, alert
    fetching and normalisation, severity bucketing, report rendering), of
    [storage.py] (the JSON-file registry of activated chats) and of the
    report step of [monitor.py], followed by the properties the design
    document states about them.

    Conventions.
    - A Python value that comes off the wire or out of the storage file is a
      [JSON] value.  Objects are association lists in insertion order, read
      by first match, the way a [dict] built by [json.load] behaves.  JSON
      numbers are integers here.
    - A Python [str] is a Rocq [string] holding its UTF-8 bytes.
    - Python exceptions are values of [Exn]; code that can raise returns an
      [Outcome].
    - The network is a function from the requests issued so far and the
      current request to a response; the client threads the request log. *)

From Stdlib Require Import ZArith Ascii String List Lia.
From stdpp Require Import base option list strings gmap pretty.

Set Warnings "-register-all".

Local Open Scope string_scope.
Local Open Scope list_scope.
Local Open Scope Z_scope.

(** ** Python values *)

Inductive JSON : Type :=
  | JNull : JSON
  | JBool : bool -> JSON
  | JNum : Z -> JSON
  | JStr : string -> JSON
  | JArr : list JSON -> JSON
  | JObj : list (string * JSON) -> JSON.

(** The empty [dict] literal [{}]. *)
Definition empty_dict : JSON := JObj [].

(** Python truth value of a JSON value, as tested by [if x], [not x] and
    [x or y]. *)
Definition truthy (v : JSON) : bool :=
  match v with
  | JNull => false
  | JBool b => b
  | JNum z => negb (z =? 0)
  | JStr s => negb (String.eqb s "")
  | JArr l => match l with [] => false | _ => true end
  | JObj kvs => match kvs with [] => false | _ => true end
  end.

(** [x or y]. *)
Definition py_or (x y : JSON) : JSON := if truthy x then x else y.

(** ** Exceptions and outcomes *)

Inductive Exn : Type :=
  | RequestException   (* requests.exceptions.RequestException and subclasses *)
  | AttributeError
  | KeyError
  | TypeError.

Inductive Outcome (A : Type) : Type :=
  | Ok : A -> Outcome A
  | Raise : Exn -> Outcome A
  | Diverge : Outcome A.   (* the model ran out of fuel *)

Arguments Ok {A} _.
Arguments Raise {A} _.
Arguments Diverge {A}.

Definition obind {A B} (o : Outcome A) (k : A -> Outcome B) : Outcome B :=
  match o with
  | Ok a => k a
  | Raise e => Raise e
  | Diverge => Diverge
  end.

Notation "'let?' x := c 'in' k" := (obind c (fun x => k))
  (at level 10, x name, c at level 100, k at level 200).

(** ** Dictionary primitives *)

Fixpoint assoc (k : string) (kvs : list (string * JSON)) : option JSON :=
  match kvs with
  | [] => None
  | (k', v) :: rest => if String.eqb k' k then Some v else assoc k rest
  end.

(** [d[k] = v] on the association list of a dict: replace in place when the
    key is there, append otherwise. *)
Fixpoint assoc_set (k : string) (v : JSON) (kvs : list (string * JSON))
  : list (string * JSON) :=
  match kvs with
  | [] => [(k, v)]
  | (k', v') :: rest =>
      if String.eqb k' k then (k, v) :: rest else (k', v') :: assoc_set k v rest
  end.

(** [x.get(k)]: [None] when missing; [AttributeError] when [x] is no dict. *)
Definition py_get (x : JSON) (k : string) : Outcome JSON :=
  match x with
  | JObj kvs => Ok (default JNull (assoc k kvs))
  | _ => Raise AttributeError
  end.

(** [x.get(k, d)]. *)
Definition py_get_default (x : JSON) (k : string) (d : JSON) : Outcome JSON :=
  match x with
  | JObj kvs => Ok (default d (assoc k kvs))
  | _ => Raise AttributeError
  end.

(** [x[k]] with a string key. *)
Definition py_index (x : JSON) (k : string) : Outcome JSON :=
  match x with
  | JObj kvs => match assoc k kvs with Some v => Ok v | None => Raise KeyError end
  | _ => Raise TypeError
  end.

(** [x[k] = v] with a string key. *)
Definition py_setitem (x : JSON) (k : string) (v : JSON) : Outcome JSON :=
  match x with
  | JObj kvs => Ok (JObj (assoc_set k v kvs))
  | _ => Raise TypeError
  end.

(** Substring test, for [k in s] on two strings. *)
Fixpoint is_substring (k s : string) : bool :=
  match s with
  | EmptyString => String.eqb k ""
  | String _ s' => String.prefix k s || is_substring k s'
  end.

Definition is_jstr (k : string) (v : JSON) : bool :=
  match v with JStr s => String.eqb s k | _ => false end.

(** [k in x] with a string [k]. *)
Definition py_in (k : string) (x : JSON) : Outcome bool :=
  match x with
  | JObj kvs => Ok (bool_decide (is_Some (assoc k kvs)))
  | JArr l => Ok (existsb (is_jstr k) l)
  | JStr s => Ok (is_substring k s)
  | _ => Raise TypeError
  end.

(** Splitting a UTF-8 byte string into its characters: a byte in
    [128, 192) continues the character before it. *)
Definition is_continuation (c : ascii) : bool :=
  let n := nat_of_ascii c in (128 <=? n)%nat && (n <? 192)%nat.

Fixpoint utf8_chars_go (cur : string) (s : string) : list string :=
  match s with
  | EmptyString => [cur]
  | String c s' =>
      if is_continuation c then utf8_chars_go (cur +:+ String c "") s'
      else cur :: utf8_chars_go (String c "") s'
  end.

Definition utf8_chars (s : string) : list string :=
  match s with
  | EmptyString => []
  | String c s' => utf8_chars_go (String c "") s'
  end.

(** The items a [for] loop or [list.extend] takes from a value. *)
Definition py_iter (x : JSON) : Outcome (list JSON) :=
  match x with
  | JArr l => Ok l
  | JObj kvs => Ok (map (fun kv => JStr (fst kv)) kvs)
  | JStr s => Ok (map JStr (utf8_chars s))
  | _ => Raise TypeError
  end.


(** ASCII lower-casing.  [str.lower] is Unicode-aware, but the only use of
    the lowered string in this program is the lookup among the keys
    critical, high, moderate, low: a string with a non-ASCII character
    never lowers to one of them (the one character that lowers to an ASCII
    letter on its own is the Kelvin sign, to [k]), and here its bytes stay
    above 127, so both sides miss the four keys. *)
Definition lower_ascii (c : ascii) : ascii :=
  let n := nat_of_ascii c in
  if (65 <=? n)%nat && (n <=? 90)%nat then ascii_of_nat (n + 32) else c.

Fixpoint lower (s : string) : string :=
  match s with
  | EmptyString => EmptyString
  | String c s' => String (lower_ascii c) (lower s')
  end.

(** The newline character and ["\n".join(lines)]. *)
Definition nl : string := String (ascii_of_nat 10) "".

Fixpoint join (sep : string) (lines : list string) : string :=
  match lines with
  | [] => ""
  | [l] => l
  | l :: rest => l +:+ sep +:+ join sep rest
  end.

(** [s * n] on a string. *)
Fixpoint repeat_str (s : string) (n : nat) : string :=
  match n with
  | O => ""
  | S n' => s +:+ repeat_str s n'
  end.

(** * storage.py: the registry of activated chats *)

Module Storage.

(** What [STORAGE_FILE] holds: no file, a file that cannot be read or
    parsed, or a file holding a JSON value.  [writes] counts the times the
    file has been opened for writing. *)
Inductive FileState : Type :=
  | NoFile
  | Unreadable
  | Stored (data : JSON).

Record Disk : Type := { file : FileState; writes : nat }.

Definition empty_registry : JSON := JObj [("users", empty_dict)].

Definition load_users (d : Disk) : JSON :=
  match file d with
  | NoFile => empty_registry
  | Unreadable => empty_registry
  | Stored data => data
  end.

(** [json.dump] followed by a later [json.load] gives the value back: the
    values written here are dicts with string keys holding strings and
    [None]. *)
Definition save_users (data : JSON) (d : Disk) : Disk :=
  {| file := Stored data; writes := S (writes d) |}.

(** [str(chat_id)]. *)
Definition chat_key (chat_id : Z) : string := pretty chat_id.

Definition is_user_activated (chat_id : Z) (d : Disk) : Outcome bool :=
  let data := load_users d in
  let? users := py_get_default data "users" empty_dict in
  py_in (chat_key chat_id) users.

(** [activate_user(chat_id, username)]; [now] is the text that
    [datetime.now().isoformat()] returns at the call.  The result comes
    with the disk the call leaves behind. *)
Definition activate_user (chat_id : Z) (username : JSON) (now : string)
    (d : Disk) : Outcome bool * Disk :=
  let data := load_users d in
  let prepared :=
    let? has_users := py_in "users" data in
    let? data1 := (if negb has_users then py_setitem data "users" empty_dict
                   else Ok data) in
    let chat_id_str := chat_key chat_id in
    let? users := py_index data1 "users" in
    let? present := py_in chat_id_str users in
    if present then Ok None
    else
      let record := JObj [("username", username); ("activated_at", JStr now)] in
      (* data["users"][chat_id_str] = record updates the dict inside data *)
      let? users' := py_setitem users chat_id_str record in
      let? data2 := py_setitem data1 "users" users' in
      Ok (Some data2) in
  match prepared with
  | Ok None => (Ok false, d)
  | Ok (Some data2) => (Ok true, save_users data2 d)
  | Raise e => (Raise e, d)
  | Diverge => (Diverge, d)
  end.

Definition get_user_info (chat_id : Z) (d : Disk) : Outcome JSON :=
  let data := load_users d in
  let? users := py_get_default data "users" empty_dict in
  py_get users (chat_key chat_id).

(** A registry file as this module writes it: absent, unreadable, or a
    dict whose ["users"] entry, when there is one, is a dict. *)
Definition registry_ok (d : Disk) : bool :=
  match load_users d with
  | JObj kvs =>
      match assoc "users" kvs with
      | None => true
      | Some (JObj _) => true
      | Some _ => false
      end
  | _ => false
  end.

(** The entries of the ["users"] dict of the registry; none when the file
    holds no such dict. *)
Definition users_of (d : Disk) : list (string * JSON) :=
  match load_users d with
  | JObj kvs =>
      match assoc "users" kvs with
      | Some (JObj us) => us
      | _ => []
      end
  | _ => []
  end.

(** The record [activate_user] stores. *)
Definition registration (username : JSON) (now : string) : JSON :=
  JObj [("username", username); ("activated_at", JStr now)].

(** ** get_all_activated_chat_ids

    [int(chat_id)] on a key of the registry is a parameter: [py_int] gives
    [None] where [int] raises [ValueError]. *)
Inductive ChatIds : Type :=
  | Ids (ids : gset Z)
  | IdsRaise (e : Exn)
  | IdsValueError (key : string).

Section ChatIds.

Variable py_int : string → option Z.

(** The set comprehension over the keys, in key order. *)
Fixpoint collect_ids (keys : list string) (ids : gset Z) : ChatIds :=
  match keys with
  | [] => Ids ids
  | key :: rest =>
      match py_int key with
      | Some chat_id => collect_ids rest (ids ∪ {[chat_id]})
      | None => IdsValueError key
      end
  end.

Definition get_all_activated_chat_ids (d : Disk) : ChatIds :=
  let data := load_users d in
  match data with
  | JObj kvs =>
      match default empty_dict (assoc "users" kvs) with
      | JObj us => collect_ids (map fst us) ∅
      | _ => IdsRaise AttributeError   (* no [keys] on a value that is no dict *)
      end
  | _ => IdsRaise AttributeError       (* no [get] on a value that is no dict *)
  end.

End ChatIds.

End Storage.

(** * github_client.py *)

Module GithubClient.

(** [class Severity(Enum)] *)
Inductive Severity : Type := CRITICAL | HIGH | MODERATE | LOW.

Definition Severity_value (s : Severity) : string :=
  match s with
  | CRITICAL => "critical"
  | HIGH => "high"
  | MODERATE => "moderate"
  | LOW => "low"
  end.

(** [@dataclass SecurityAlert].  The annotations say [str], but a dataclass
    stores whatever it is given; every field except [repo_name] (an
    f-string) receives a value read from the payload. *)
Record SecurityAlert : Type := {
  repo_name : string;
  package_name : JSON;
  severity : JSON;
  cve_id : JSON;
  ghsa_id : JSON;
  summary : JSON;
  vulnerable_version : JSON;
  patched_version : JSON;
  url : JSON;
  created_at : JSON
}.

(** The dict the alerts are grouped in. *)
Abbreviation Buckets := (gmap string (list SecurityAlert)).

(** ** The HTTP layer *)

Record Request : Type := {
  req_url : string;
  req_headers : list (string * string);
  req_params : list (string * JSON)
}.

(** What [requests.get] does: it raises a [RequestException] (no
    connection, timeout, ...) or returns a response with a status code and
    a body; the body is [None] here when [response.json()] cannot decode
    it. *)
Inductive Response : Type :=
  | ConnectionFailed
  | HttpResponse (status_code : Z) (body : option JSON).

(** The requests issued so far, oldest first. *)
Definition Log : Type := list Request.

(** The service: it answers a request knowing the requests before it. *)
Definition Server : Type := Log -> Request -> Response.

(** Computations that issue requests and may raise. *)
Definition IO (A : Type) : Type := Log -> Outcome A * Log.

Definition ret {A} (a : A) : IO A := fun log => (Ok a, log).

Definition bind {A B} (c : IO A) (k : A -> IO B) : IO B :=
  fun log =>
    match c log with
    | (Ok a, log') => k a log'
    | (Raise e, log') => (Raise e, log')
    | (Diverge, log') => (Diverge, log')
    end.

Definition lift {A} (o : Outcome A) : IO A := fun log => (o, log).

Notation "x <- c ;; k" := (bind c (fun x => k))
  (at level 60, c at next level, right associativity).

(** [response.raise_for_status()]: an [HTTPError] for 4xx and 5xx. *)
Definition raise_for_status (status_code : Z) : Outcome unit :=
  if (400 <=? status_code) && (status_code <? 600) then Raise RequestException
  else Ok tt.

(** [response.json()]: [requests.exceptions.JSONDecodeError], a
    [RequestException], when the body is no JSON. *)
Definition response_json (body : option JSON) : Outcome JSON :=
  match body with
  | Some data => Ok data
  | None => Raise RequestException
  end.

Definition BASE_URL : string := "https://api.github.com".

Section Client.

(** The service the client talks to, Python's [str()] as used by f-strings
    on payload values, and the token the client was built with. *)
Variable srv : Server.
Variable fmt : JSON -> string.
Variable token : string.

Definition headers : list (string * string) :=
  [("Authorization", "Bearer " +:+ token);
   ("Accept", "application/vnd.github+json");
   ("X-GitHub-Api-Version", "2022-11-28")].

Definition requests_get (r : Request) : IO (Z * option JSON) :=
  fun log =>
    match srv log r with
    | ConnectionFailed => (Raise RequestException, log ++ [r])
    | HttpResponse status_code body => (Ok (status_code, body), log ++ [r])
    end.

(** ** get_user_repos *)

Definition repos_request (page : Z) : Request :=
  {| req_url := BASE_URL +:+ "/user/repos";
     req_headers := headers;
     req_params := [("per_page", JNum 100); ("page", JNum page);
                    ("type", JStr "all")] |}.

(** The [while True] loop; [fuel] bounds the number of iterations. *)
Fixpoint get_user_repos_loop (fuel : nat) (page : Z) (repos : list JSON)
  : IO (list JSON) :=
  match fuel with
  | O => lift Diverge
  | S fuel' =>
      response <- requests_get (repos_request page) ;;
      _ <- lift (raise_for_status (fst response)) ;;
      data <- lift (response_json (snd response)) ;;
      if negb (truthy data) then ret repos
      else
        items <- lift (py_iter data) ;;
        get_user_repos_loop fuel' (page + 1) (repos ++ items)
  end.

Definition get_user_repos (fuel : nat) : IO (list JSON) :=
  get_user_repos_loop fuel 1 [].

(** ** get_dependabot_alerts *)

Definition alerts_request (owner repo : JSON) : Request :=
  {| req_url := BASE_URL +:+ "/repos/" +:+ fmt owner +:+ "/" +:+ fmt repo
                +:+ "/dependabot/alerts";
     req_headers := headers;
     req_params := [("state", JStr "open"); ("per_page", JNum 100)] |}.

(** The body of the [for alert in data] loop: one raw alert to one
    [SecurityAlert]. *)
Definition normalize (owner repo : JSON) (alert : JSON) : Outcome SecurityAlert :=
  let? sa := py_get alert "security_advisory" in
  let security_advisory := py_or sa empty_dict in
  let? sv := py_get alert "security_vulnerability" in
  let vulnerability := py_or sv empty_dict in
  let? first_patched := py_get vulnerability "first_patched_version" in
  let? patched := (if truthy first_patched then py_get first_patched "identifier"
                   else Ok (JStr "N/A")) in
  let? pk := py_get vulnerability "package" in
  let package := py_or pk empty_dict in
  let? name := py_get_default package "name" (JStr "unknown") in
  let? sev := py_get_default security_advisory "severity" (JStr "unknown") in
  let? cve := py_get security_advisory "cve_id" in
  let? ghsa := py_get security_advisory "ghsa_id" in
  let? summ := py_get_default security_advisory "summary" (JStr "No description") in
  let? range := py_get_default vulnerability "vulnerable_version_range" (JStr "") in
  let? link := py_get_default alert "html_url" (JStr "") in
  let? created := py_get_default alert "created_at" (JStr "") in
  Ok {| repo_name := fmt owner +:+ "/" +:+ fmt repo;
        package_name := name;
        severity := sev;
        cve_id := py_or cve (JStr "");
        ghsa_id := py_or ghsa (JStr "");
        summary := summ;
        vulnerable_version := range;
        patched_version := patched;
        url := link;
        created_at := created |}.

(** How the [try] block ends: by its [return []], by falling off its end,
    or by an exception; the last two leave the [alerts] list built so
    far. *)
Inductive TryEnd : Type :=
  | Returned (value : list SecurityAlert)
  | Completed (alerts : list SecurityAlert)
  | Raised (e : Exn) (alerts : list SecurityAlert)
  | OutOfFuel.

Fixpoint normalize_loop (owner repo : JSON) (data : list JSON)
    (alerts : list SecurityAlert) : TryEnd :=
  match data with
  | [] => Completed alerts
  | alert :: rest =>
      match normalize owner repo alert with
      | Ok a => normalize_loop owner repo rest (alerts ++ [a])
      | Raise e => Raised e alerts
      | Diverge => OutOfFuel
      end
  end.

Definition try_block (owner repo : JSON) (alerts : list SecurityAlert)
  : Log -> TryEnd * Log :=
  fun log =>
    match requests_get (alerts_request owner repo) log with
    | (Ok (status_code, body), log') =>
        if (status_code =? 403) || (status_code =? 404) then (Returned [], log')
        else
          match raise_for_status status_code with
          | Ok _ =>
              match response_json body with
              | Ok data =>
                  match py_iter data with
                  | Ok items => (normalize_loop owner repo items alerts, log')
                  | Raise e => (Raised e alerts, log')
                  | Diverge => (OutOfFuel, log')
                  end
              | Raise e => (Raised e alerts, log')
              | Diverge => (OutOfFuel, log')
              end
          | Raise e => (Raised e alerts, log')
          | Diverge => (OutOfFuel, log')
          end
    | (Raise e, log') => (Raised e alerts, log')
    | (Diverge, log') => (OutOfFuel, log')
    end.

(** [except requests.exceptions.RequestException] prints and falls through
    to [return alerts]; any other exception leaves the function. *)
Definition get_dependabot_alerts (owner repo : JSON) : IO (list SecurityAlert) :=
  fun log =>
    let alerts := [] in
    match try_block owner repo alerts log with
    | (Returned value, log') => (Ok value, log')
    | (Completed alerts', log') => (Ok alerts', log')
    | (Raised RequestException alerts', log') => (Ok alerts', log')
    | (Raised e _, log') => (Raise e, log')
    | (OutOfFuel, log') => (Diverge, log')
    end.

(** ** get_all_alerts *)

Definition initial_buckets : Buckets :=
  <["critical" := []]> (<["high" := []]> (<["moderate" := []]>
    (<["low" := []]> ∅))).

(** One round of [for alert in alerts]. *)
Definition bucket_step (all_alerts : Buckets) (alert : SecurityAlert)
  : Outcome Buckets :=
  match severity alert with
  | JStr s =>
      let severity := lower s in
      match all_alerts !! severity with
      | Some bucket => Ok (<[severity := bucket ++ [alert]]> all_alerts)
      | None =>
          match all_alerts !! "low" with
          | Some bucket => Ok (<["low" := bucket ++ [alert]]> all_alerts)
          | None => Raise KeyError
          end
      end
  | _ => Raise AttributeError   (* no [lower] on a value that is no str *)
  end.

Fixpoint bucket_loop (alerts : list SecurityAlert) (all_alerts : Buckets)
  : Outcome Buckets :=
  match alerts with
  | [] => Ok all_alerts
  | alert :: rest =>
      let? all_alerts' := bucket_step all_alerts alert in
      bucket_loop rest all_alerts'
  end.

(** [for repo in repos]. *)
Fixpoint repos_loop (repos : list JSON) (all_alerts : Buckets) : IO Buckets :=
  match repos with
  | [] => ret all_alerts
  | repo :: rest =>
      owner <- lift (let? o := py_index repo "owner" in py_index o "login") ;;
      repo_name <- lift (py_index repo "name") ;;
      alerts <- get_dependabot_alerts owner repo_name ;;
      all_alerts' <- lift (bucket_loop alerts all_alerts) ;;
      repos_loop rest all_alerts'
  end.

Definition get_all_alerts (fuel : nat) : IO Buckets :=
  repos <- get_user_repos fuel ;;
  repos_loop repos initial_buckets.

(** ** format_alerts_report *)

Definition severity_emoji (severity : string) : string :=
  if String.eqb severity "critical" then "🔴"
  else if String.eqb severity "high" then "🟠"
  else if String.eqb severity "moderate" then "🟡"
  else if String.eqb severity "low" then "🔵"
  else "⚪".

Definition severity_names (severity : string) : option string :=
  if String.eqb severity "critical" then Some "CRITICAL"
  else if String.eqb severity "high" then Some "HIGH"
  else if String.eqb severity "moderate" then Some "MODERATE"
  else if String.eqb severity "low" then Some "LOW"
  else None.

(** ASCII upper-casing, the default of [severity_names.get]; the four
    severities of the loop all have a name. *)
Definition upper_ascii (c : ascii) : ascii :=
  let n := nat_of_ascii c in
  if (97 <=? n)%nat && (n <=? 122)%nat then ascii_of_nat (n - 32) else c.

Fixpoint upper (s : string) : string :=
  match s with
  | EmptyString => EmptyString
  | String c s' => String (upper_ascii c) (upper s')
  end.

(** The lines one alert adds. *)
Definition alert_lines (alert : SecurityAlert) : list string :=
  let cve := py_or (cve_id alert) (py_or (ghsa_id alert) (JStr "N/A")) in
  ["📦 `" +:+ fmt (package_name alert) +:+ "`";
   "   📁 " +:+ repo_name alert;
   "   🆔 " +:+ fmt cve;
   "   ⬆️ Обновить до: " +:+ fmt (patched_version alert)]
  ++ (if truthy (url alert)
      then ["   🔗 [Подробнее](" +:+ fmt (url alert) +:+ ")"] else [])
  ++ [""].

(** [severity_alerts[:10]]. *)
Definition first_ten (severity_alerts : list SecurityAlert) : list SecurityAlert :=
  take 10 severity_alerts.

(** The two lines that open a section, and the line that closes a
    truncated one. *)
Definition section_header (severity : string) (count : nat) : string :=
  let emoji := severity_emoji severity in
  let name := default (upper severity) (severity_names severity) in
  nl +:+ emoji +:+ " *" +:+ name +:+ "* (" +:+ pretty count +:+ ")".

Definition section_rule : string := repeat_str "─" 25.

Definition more_line (count : nat) : string :=
  "   ... и ещё " +:+ pretty (count - 10)%nat.

(** One round of [for severity in [...]]: the lines it appends. *)
Definition section_lines (alerts : Buckets) (severity : string) : list string :=
  let severity_alerts := default [] (alerts !! severity) in
  match severity_alerts with
  | [] => []
  | _ =>
      [section_header severity (length severity_alerts); section_rule]
      ++ concat (map alert_lines (first_ten severity_alerts))
      ++ (if (10 <? length severity_alerts)%nat
          then [more_line (length severity_alerts)]
          else [])
  end.

(** [sum(len(a) for a in alerts.values())] *)
Definition total_alerts (alerts : Buckets) : nat :=
  sum_list_with (fun kv => length (snd kv)) (map_to_list alerts).

Definition all_clear : string :=
  "✅ *Security Monitor Report*" +:+ nl +:+ nl
  +:+ "Нет открытых уязвимостей! Все репозитории в безопасности.".

Definition recommendation : string :=
  nl +:+ "💡 *Рекомендация:* Обновите зависимости командой `npm update` или `pip install --upgrade`".

(** The [lines] list just before the final join. *)
Definition report_head (total : nat) : list string :=
  ["🛡️ *Security Monitor Report*";
   "📅 Найдено уязвимостей: *" +:+ pretty total +:+ "*";
   ""].

Definition report_lines (alerts : Buckets) : list string :=
  let total := total_alerts alerts in
  let lines := report_head total in
  let lines :=
    foldl (fun lines severity => lines ++ section_lines alerts severity)
          lines ["critical"; "high"; "moderate"; "low"] in
  lines ++ [recommendation].

Definition format_alerts_report (alerts : Buckets) : string :=
  if (total_alerts alerts =? 0)%nat then all_clear
  else join nl (report_lines alerts).

End Client.

(** ** What the service answers

    The predicates the theorems use to describe a run of the service. *)

(** The decoded body of a response that passes [raise_for_status] and
    [json()]; [None] for a failed connection, a 4xx or 5xx status, or a
    body that is no JSON. *)
Definition page_of (r : Response) : option JSON :=
  match r with
  | ConnectionFailed => None
  | HttpResponse status_code body =>
      if (400 <=? status_code) && (status_code <? 600) then None else body
  end.


(** The listing requests for [n] pages from page [first] on. *)
Definition page_requests (token : string) (first : Z) (n : nat) : list Request :=
  map (fun i => repos_request token (first + Z.of_nat i)) (seq 0 n).

(** From the history [log] on, the service answers the listing requests for
    pages [page], [page + 1], ... with the non-empty pages [pages], and the
    request after them with [last]. *)
Fixpoint serves_pages (srv : Server) (token : string) (log : Log) (page : Z)
    (pages : list (list JSON)) (last : option JSON) : Prop :=
  match pages with
  | [] => page_of (srv log (repos_request token page)) = last
  | items :: rest =>
      items ≠ []
      ∧ page_of (srv log (repos_request token page)) = Some (JArr items)
      ∧ serves_pages srv token (log ++ [repos_request token page]) (page + 1)
          rest last
  end.

(** [repo["owner"]["login"]] *)
Definition repo_owner (repo : JSON) : Outcome JSON :=
  let? o := py_index repo "owner" in py_index o "login".

(** The service returns no more items than the [per_page] of the request
    asks for. *)
Definition honours_per_page (r : Request) (resp : Response) : bool :=
  match resp, assoc "per_page" (req_params r) with
  | HttpResponse _ (Some (JArr items)), Some (JNum n) =>
      bool_decide (Z.of_nat (length items) ≤ n)
  | _, _ => true
  end.

(** ** The bucketing rule in the design document's words

    "Lower-case its severity string and look it up in the four-key map;
    unmatched values fall into the low bucket."  These definitions follow
    that sentence; the theorems below compare [bucket_step] and
    [bucket_loop] with them. *)

Definition severity_keys : list string := ["critical"; "high"; "moderate"; "low"].

(** The key set of the bucket dict. *)
Definition key_set : gset string := list_to_set severity_keys.

Definition bucket_key (s : string) : string :=
  if bool_decide (lower s ∈ severity_keys) then lower s else "low".

(** The bucket of an alert whose severity is a string. *)
Definition alert_key (alert : SecurityAlert) : string :=
  match severity alert with
  | JStr s => bucket_key s
  | _ => "low"
  end.

Definition severity_is_str (alert : SecurityAlert) : bool :=
  match severity alert with JStr _ => true | _ => false end.


(** ** Raw alerts and the documented defaults

    A raw alert record is a JSON object in which every optional nesting
    level (the advisory, the vulnerability, its first patched version and
    its package) is missing, null or another empty value, or an object. *)

Definition field (v : JSON) (k : string) : option JSON :=
  match v with
  | JObj kvs => assoc k kvs
  | _ => None
  end.

(** The value under [k], [None] (null) when there is none. *)
Definition nested (v : JSON) (k : string) : JSON := default JNull (field v k).

Definition dict_or_falsy (v : JSON) : bool :=
  match v with
  | JObj _ => true
  | _ => negb (truthy v)
  end.

Definition raw_alert_ok (alert : JSON) : bool :=
  match alert with
  | JObj _ =>
      let vulnerability := nested alert "security_vulnerability" in
      dict_or_falsy (nested alert "security_advisory")
      && dict_or_falsy vulnerability
      && dict_or_falsy (nested vulnerability "first_patched_version")
      && dict_or_falsy (nested vulnerability "package")
  | _ => false
  end.

Definition absent_or_null (v : JSON) (k : string) : Prop :=
  field v k = None ∨ field v k = Some JNull.

(** The defaults of the data model, field by field: what the normalised
    alert [a] holds when the raw alert lacks the source value. *)
Definition documented_defaults (alert : JSON) (a : SecurityAlert) : Prop :=
  let advisory := nested alert "security_advisory" in
  let vulnerability := nested alert "security_vulnerability" in
  let package := nested vulnerability "package" in
  (field package "name" = None → package_name a = JStr "unknown")
  ∧ (field advisory "severity" = None → severity a = JStr "unknown")
  ∧ (absent_or_null advisory "cve_id" → cve_id a = JStr "")
  ∧ (absent_or_null advisory "ghsa_id" → ghsa_id a = JStr "")
  ∧ (field advisory "summary" = None → summary a = JStr "No description")
  ∧ (field vulnerability "vulnerable_version_range" = None →
       vulnerable_version a = JStr "")
  ∧ (absent_or_null vulnerability "first_patched_version" →
       patched_version a = JStr "N/A")
  ∧ (field alert "html_url" = None → url a = JStr "")
  ∧ (field alert "created_at" = None → created_at a = JStr "").

(** What the normalised alert [a] holds where the raw alert does have the
    source value: the value itself, whatever it is. *)
Definition copies_present (alert : JSON) (a : SecurityAlert) : Prop :=
  let advisory := nested alert "security_advisory" in
  let vulnerability := nested alert "security_vulnerability" in
  let package := nested vulnerability "package" in
  let first_patched := nested vulnerability "first_patched_version" in
  (∀ v, field package "name" = Some v → package_name a = v)
  ∧ (∀ v, field advisory "severity" = Some v → severity a = v)
  ∧ (∀ v, field advisory "cve_id" = Some v → truthy v = true → cve_id a = v)
  ∧ (∀ v, field advisory "ghsa_id" = Some v → truthy v = true → ghsa_id a = v)
  ∧ (∀ v, field advisory "summary" = Some v → summary a = v)
  ∧ (∀ v, field vulnerability "vulnerable_version_range" = Some v →
          vulnerable_version a = v)
  ∧ (truthy first_patched = true →
       patched_version a = nested first_patched "identifier")
  ∧ (∀ v, field alert "html_url" = Some v → url a = v)
  ∧ (∀ v, field alert "created_at" = Some v → created_at a = v).

End GithubClient.

(** * monitor.py and bot.py: the callers of the pipeline *)

Module Monitor.

Import GithubClient.

Section Callers.

Variable srv : Server.
Variable fmt : JSON -> string.
Variable token : string.

(** [send_daily_report] once both tokens are set: the messages handed to
    [bot.send_message], one per chat.  Every exception of the pipeline is
    caught and logged. *)
Definition send_daily_report (fuel : nat) (chat_ids : list Z)
  : Log -> Outcome (list (Z * string)) * Log :=
  fun log =>
    match chat_ids with
    | [] => (Ok [], log)
    | _ =>
        match get_all_alerts srv fmt token fuel log with
        | (Ok alerts, log') =>
            let report := format_alerts_report fmt alerts in
            (Ok (map (fun chat_id => (chat_id, report)) chat_ids), log')
        | (Raise _, log') => (Ok [], log')
        | (Diverge, log') => (Diverge, log')
        end
    end.

(** What [update_command] answers after its progress message: the report,
    or the error text built from the exception. *)
Inductive UpdateReply : Type :=
  | Report (text : string)
  | ErrorText (e : Exn).

Definition update_command_reply (fuel : nat) : Log -> Outcome UpdateReply * Log :=
  fun log =>
    match get_all_alerts srv fmt token fuel log with
    | (Ok alerts, log') => (Ok (Report (format_alerts_report fmt alerts)), log')
    | (Raise e, log') => (Ok (ErrorText e), log')
    | (Diverge, log') => (Diverge, log')
    end.

End Callers.

End Monitor.

(** * bot.py: the command handlers

    A handler gets the chat id and the user of the update and answers
    through [reply_text]; what it hands to [reply_text] is its list of
    replies.  The registry is the [Disk] of [storage.py], the service and
    the request log are those of [github_client.py].  The bot runs only
    with its three tokens set ([main] checks them), so the GitHub token is
    a string here. *)

Module Bot.

Import Storage GithubClient.

(** A call of [reply_text]. *)
Record Reply : Type := {
  text : string;
  parse_mode : option string;
  disable_web_page_preview : bool
}.

Definition plain (t : string) : Reply :=
  {| text := t; parse_mode := None; disable_web_page_preview := false |}.

Definition markdown (t : string) : Reply :=
  {| text := t; parse_mode := Some "Markdown"; disable_web_page_preview := false |}.

(** [update.effective_user]: the optional user name and the first name. *)
Record User : Type := { username : option string; first_name : string }.

(** [user.username or user.first_name] *)
Definition display_name (user : User) : string :=
  match username user with
  | Some name => if String.eqb name "" then first_name user else name
  | None => first_name user
  end.

Definition greeting (user : User) : string :=
  "👋 Привет, " +:+ first_name user +:+ "!" +:+ nl +:+ nl.

Definition start_activated_text (user : User) : string :=
  greeting user
  +:+ "✅ Вы уже активированы." +:+ nl +:+ nl
  +:+ "Доступные команды:" +:+ nl
  +:+ "• /status - статус активации" +:+ nl
  +:+ "• /update - проверить уязвимости" +:+ nl.

Definition start_locked_text (user : User) : string :=
  greeting user
  +:+ "🔒 Этот бот мониторит GitHub Security Alerts." +:+ nl +:+ nl
  +:+ "Для активации используйте команду:" +:+ nl
  +:+ "`/activate <ваш_токен>`" +:+ nl +:+ nl
  +:+ "Токен активации можно получить у администратора.".

Definition start_command (chat_id : Z) (user : User) (d : Disk)
  : Outcome (list Reply) :=
  let? activated := is_user_activated chat_id d in
  if activated then Ok [plain (start_activated_text user)]
  else Ok [markdown (start_locked_text user)].

Definition already_activated_text : string := "✅ Вы уже активированы!".

Definition usage_text : string := "❌ Использование: `/activate <токен>`".

Definition wrong_token_text : string := "❌ Неверный токен активации.".

Definition activation_done_text : string :=
  "✅ Активация успешна!" +:+ nl +:+ nl
  +:+ "Теперь вы будете получать ежедневные отчёты о безопасности." +:+ nl +:+ nl
  +:+ "Доступные команды:" +:+ nl
  +:+ "• /status - статус активации" +:+ nl
  +:+ "• /update - проверить уязвимости прямо сейчас".

Definition activated_before_text : string := "✅ Вы уже были активированы ранее.".

Definition status_locked_text : string :=
  "❌ Вы не активированы." +:+ nl +:+ nl
  +:+ "Используйте `/activate <токен>` для активации.".

Definition update_locked_text : string :=
  "❌ Команда доступна только для активированных пользователей." +:+ nl +:+ nl
  +:+ "Используйте `/activate <токен>` для активации.".

Definition progress_text : string := "🔍 Проверяю репозитории на уязвимости...".

Definition unknown_text : string :=
  "🔒 Бот требует активации." +:+ nl +:+ nl
  +:+ "Используйте `/activate <токен>` или напишите /start".

Section Handlers.

(** The service, [str()] on payload values, the GitHub token, the value of
    [ACTIVATION_TOKEN] in the environment, and [str(e)] on an exception. *)
Variable srv : Server.
Variable fmt : JSON → string.
Variable GITHUB_TOKEN : string.
Variable ACTIVATION_TOKEN : option string.
Variable exn_text : Exn → string.

(** [activate_command]; [args] is [context.args], [now] the clock reading
    [activate_user] takes. *)
Definition activate_command (chat_id : Z) (user : User) (args : list string)
    (now : string) (d : Disk) : Outcome (list Reply) * Disk :=
  match is_user_activated chat_id d with
  | Ok true => (Ok [plain already_activated_text], d)
  | Ok false =>
      match args with
      | [token] =>
          if bool_decide (Some token ≠ ACTIVATION_TOKEN)
          then (Ok [plain wrong_token_text], d)
          else
            let username := display_name user in
            match activate_user chat_id (JStr username) now d with
            | (Ok true, d') => (Ok [plain activation_done_text], d')
            | (Ok false, d') => (Ok [plain activated_before_text], d')
            | (Raise e, d') => (Raise e, d')
            | (Diverge, d') => (Diverge, d')
            end
      | _ => (Ok [markdown usage_text], d)
      end
  | Raise e => (Raise e, d)
  | Diverge => (Diverge, d)
  end.

Definition status_text (activated_at : JSON) (chat_id : Z) : string :=
  "✅ *Статус: Активирован*" +:+ nl +:+ nl
  +:+ "📅 Дата активации: `" +:+ fmt activated_at +:+ "`" +:+ nl
  +:+ "🆔 Chat ID: `" +:+ pretty chat_id +:+ "`" +:+ nl +:+ nl
  +:+ "Используйте /update для проверки уязвимостей.".

Definition status_command (chat_id : Z) (d : Disk) : Outcome (list Reply) :=
  let? activated := is_user_activated chat_id d in
  if negb activated then Ok [markdown status_locked_text]
  else
    let? user_info := get_user_info chat_id d in
    let? activated_at :=
      (if truthy user_info then py_get_default user_info "activated_at" (JStr "N/A")
       else Ok (JStr "N/A")) in
    Ok [markdown (status_text activated_at chat_id)].

Definition report_reply (report : string) : Reply :=
  {| text := report; parse_mode := Some "Markdown";
     disable_web_page_preview := true |}.

Definition error_text (e : Exn) : string :=
  "❌ Ошибка при проверке: " +:+ exn_text e.

Definition update_command (chat_id : Z) (fuel : nat) (d : Disk)
  : Log → Outcome (list Reply) * Log :=
  fun log =>
    match is_user_activated chat_id d with
    | Ok false => (Ok [markdown update_locked_text], log)
    | Ok true =>
        match get_all_alerts srv fmt GITHUB_TOKEN fuel log with
        | (Ok alerts, log') =>
            (Ok [plain progress_text;
                 report_reply (format_alerts_report fmt alerts)], log')
        | (Raise e, log') =>
            (Ok [plain progress_text; plain (error_text e)], log')
        | (Diverge, log') => (Diverge, log')
        end
    | Raise e => (Raise e, log)
    | Diverge => (Diverge, log)
    end.

Definition unknown_message (chat_id : Z) (d : Disk) : Outcome (list Reply) :=
  let? activated := is_user_activated chat_id d in
  if negb activated then Ok [markdown unknown_text] else Ok [].

End Handlers.

End Bot.

(** * monitor.py: the daily job, from the registry to the messages *)

Module DailyJob.

Import Storage GithubClient.

(** How [send_daily_report] ends: a token is missing; nobody is activated;
    the report went to [bot.send_message] once per activated chat; the
    pipeline raised and the error was logged; or reading the registry
    raised, before the [try]. *)
Inductive JobEnd : Type :=
  | NotConfigured
  | NoUsers
  | Sent (messages : gmap Z string)
  | Failed (e : Exn)
  | RegistryRaised (ids : ChatIds)
  | OutOfFuel.

(** [not TOKEN] on the value [os.getenv] returns. *)
Definition token_missing (t : option string) : bool :=
  match t with
  | Some s => String.eqb s ""
  | None => true
  end.

Section Job.

Variable srv : Server.
Variable fmt : JSON → string.
Variable py_int : string → option Z.
Variables TELEGRAM_BOT_TOKEN GITHUB_TOKEN : option string.

Definition send_daily_report (fuel : nat) (d : Disk) : Log → JobEnd * Log :=
  fun log =>
    if token_missing TELEGRAM_BOT_TOKEN || token_missing GITHUB_TOKEN
    then (NotConfigured, log)
    else
      match get_all_activated_chat_ids py_int d with
      | Ids chat_ids =>
          if bool_decide (chat_ids = ∅) then (NoUsers, log)
          else
            match get_all_alerts srv fmt (default "" GITHUB_TOKEN) fuel log with
            | (Ok alerts, log') =>
                let report := format_alerts_report fmt alerts in
                (Sent (gset_to_gmap report chat_ids), log')
            | (Raise e, log') => (Failed e, log')
            | (Diverge, log') => (OutOfFuel, log')
            end
      | other => (RegistryRaised other, log)
      end.

End Job.

End DailyJob.

(** * Sample data for the examples below *)

Module Fixtures.

Import GithubClient.

(** [str()] on the values that occur as repository names and alert
    fields. *)
Definition sample_fmt (v : JSON) : string :=
  match v with
  | JStr s => s
  | JNull => "None"
  | JBool true => "True"
  | JBool false => "False"
  | JNum z => pretty z
  | _ => "?"
  end.

Definition sample_alert (sev : string) (n : nat) : SecurityAlert :=
  {| repo_name := "octo/app";
     package_name := JStr ("pkg" +:+ pretty n);
     severity := JStr sev;
     cve_id := JStr "";
     ghsa_id := JStr ("GHSA-" +:+ pretty n);
     summary := JStr "No description";
     vulnerable_version := JStr "< 2.0";
     patched_version := JStr "2.0";
     url := JStr "";
     created_at := JStr "" |}.

(** Raw alerts: nothing but the top-level object; every nesting level
    null; a complete record. *)
Definition raw_empty : JSON := JObj [].

Definition raw_nulls : JSON :=
  JObj [("security_advisory", JNull);
        ("security_vulnerability",
         JObj [("first_patched_version", JNull); ("package", JNull)])].

Definition raw_full (sev : string) : JSON :=
  JObj [("security_advisory",
         JObj [("severity", JStr sev); ("cve_id", JStr "CVE-2024-0001");
               ("ghsa_id", JStr "GHSA-aaaa"); ("summary", JStr "Prototype pollution")]);
        ("security_vulnerability",
         JObj [("package", JObj [("name", JStr "lodash")]);
               ("vulnerable_version_range", JStr "< 4.17.21");
               ("first_patched_version", JObj [("identifier", JStr "4.17.21")])]);
        ("html_url", JStr "https://github.com/octo/app/security/dependabot/1");
        ("created_at", JStr "2024-01-01T00:00:00Z")].

(** Fifteen alerts of severity critical, bucketed. *)
Definition fifteen_critical : list SecurityAlert :=
  map (sample_alert "critical") (seq 1 15).

Definition fifteen_critical_buckets : Buckets :=
  <["critical" := fifteen_critical]> initial_buckets.

(** A service holding a list of repositories and, per alerts URL, a status
    and the open alerts of the repository; it answers page by page. *)
Definition mk_repo (owner name : string) : JSON :=
  JObj [("name", JStr name); ("owner", JObj [("login", JStr owner)])].

Definition slice {A} (l : list A) (page per_page : Z) : list A :=
  take (Z.to_nat per_page) (drop (Z.to_nat ((page - 1) * per_page)) l).

Definition sample_server (repos : list JSON)
    (alerts_of : string → option (Z * list JSON)) : Server :=
  fun log r =>
    match assoc "per_page" (req_params r) with
    | Some (JNum n) =>
        if String.eqb (req_url r) (BASE_URL +:+ "/user/repos") then
          match assoc "page" (req_params r) with
          | Some (JNum page) => HttpResponse 200 (Some (JArr (slice repos page n)))
          | _ => HttpResponse 422 None
          end
        else
          match alerts_of (req_url r) with
          | Some (status_code, alerts) =>
              HttpResponse status_code (Some (JArr (slice alerts 1 n)))
          | None => ConnectionFailed
          end
    | _ => HttpResponse 422 None
    end.

Definition alerts_url (full_name : string) : string :=
  BASE_URL +:+ "/repos/" +:+ full_name +:+ "/dependabot/alerts".

Definition three_repos : list JSON :=
  [mk_repo "octo" "app"; mk_repo "octo" "lib"; mk_repo "octo" "old"].

(** octo/app has two open alerts, octo/lib answers 403, octo/old has one
    alert, octo/big has 150. *)
Definition sample_alerts_of (u : string) : option (Z * list JSON) :=
  if String.eqb u (alerts_url "octo/app") then Some (200, [raw_full "high"; raw_nulls])
  else if String.eqb u (alerts_url "octo/lib") then Some (403, [])
  else if String.eqb u (alerts_url "octo/old") then Some (200, [raw_full "CRITICAL"])
  else if String.eqb u (alerts_url "octo/big")
       then Some (200, map (fun _ => raw_full "low") (seq 0 150))
  else None.

Definition github : Server := sample_server three_repos sample_alerts_of.

(** The buckets and the request log once octo/app has been scanned. *)
Definition after_app : Buckets * Log :=
  match repos_loop github sample_fmt "tok" [mk_repo "octo" "app"] initial_buckets
          (page_requests "tok" 1 2) with
  | (Ok all_alerts, log) => (all_alerts, log)
  | (_, log) => (∅, log)
  end.

(** The service of [github], except that octo/lib has one open alert whose
    advisory has a null severity. *)
Definition raw_null_severity : JSON :=
  JObj [("security_advisory", JObj [("severity", JNull)])].

Definition null_severity_alerts_of (u : string) : option (Z * list JSON) :=
  if String.eqb u (alerts_url "octo/lib") then Some (200, [raw_null_severity])
  else sample_alerts_of u.

Definition github_null_severity : Server :=
  sample_server three_repos null_severity_alerts_of.

(** What [get_all_alerts] returns against [github], and the requests it
    has issued. *)
Definition github_result : Buckets * Log :=
  match get_all_alerts github sample_fmt "tok" 2 [] with
  | (Ok all_alerts, log) => (all_alerts, log)
  | (_, log) => (∅, log)
  end.

(** What the fetch for octo/lib returns against [github_null_severity]
    once octo/app has been scanned. *)
Definition null_severity_fetch : list SecurityAlert * Log :=
  match get_dependabot_alerts github_null_severity sample_fmt "tok"
          (JStr "octo") (JStr "lib") after_app.2 with
  | (Ok alerts, log) => (alerts, log)
  | (_, log) => ([], log)
  end.

(** The same service with 150 repositories. *)
Definition many_repos : list JSON :=
  map (fun i => mk_repo "octo" ("r" +:+ pretty i)) (seq 0 150).

Definition github_many : Server := sample_server many_repos (fun _ => Some (404, [])).

(** A service whose listing fails on the second page. *)
Definition github_broken : Server :=
  fun log r =>
    match assoc "page" (req_params r) with
    | Some (JNum 1) => HttpResponse 200 (Some (JArr three_repos))
    | Some (JNum _) => HttpResponse 502 None
    | _ => github log r
    end.

(** [int()] on the decimal strings [str()] produces. *)
Definition digit_of (c : ascii) : option Z :=
  let n := nat_of_ascii c in
  if (48 <=? n)%nat && (n <=? 57)%nat then Some (Z.of_nat (n - 48)) else None.

Fixpoint parse_digits (s : string) (acc : Z) : option Z :=
  match s with
  | EmptyString => Some acc
  | String c s' =>
      match digit_of c with
      | Some dg => parse_digits s' (10 * acc + dg)
      | None => None
      end
  end.

Definition sample_int (s : string) : option Z :=
  match s with
  | EmptyString => None
  | String c s' =>
      if Ascii.eqb c "-"%char
      then match s' with
           | EmptyString => None
           | _ => Z.opp <$> parse_digits s' 0
           end
      else parse_digits s 0
  end.

Definition sample_disk : Storage.Disk :=
  Storage.Build_Disk
    (Storage.Stored (JObj [("users",
       JObj [("42", JObj [("username", JStr "alice");
                          ("activated_at", JStr "2024-01-01T09:00:00")])])]))
    1.

(** A user without a user name, and [str(e)] on the exceptions. *)
Definition sample_user : Bot.User :=
  {| Bot.username := None; Bot.first_name := "Bob" |}.

Definition sample_exn_text (e : Exn) : string :=
  match e with
  | RequestException => "502 Server Error"
  | AttributeError => "'NoneType' object has no attribute 'lower'"
  | KeyError => "'owner'"
  | TypeError => "string indices must be integers"
  end.

(** The registry once chat 7 has sent the right token. *)
Definition disk_after_activation : Storage.Disk :=
  (Bot.activate_command (Some "secret") 7 sample_user ["secret"]
     "2024-02-02T10:00:00" sample_disk).2.

(** The daily job against [github] with chat 42 activated. *)
Definition daily_messages : gmap Z string * Log :=
  match DailyJob.send_daily_report github sample_fmt sample_int
          (Some "bot-token") (Some "tok") 2 sample_disk [] with
  | (DailyJob.Sent messages, log) => (messages, log)
  | (_, log) => (∅, log)
  end.

End Fixtures.

(** * Properties *)

(** ** Dictionaries *)

Lemma assoc_set_lookup k v kvs : assoc k (assoc_set k v kvs) = Some v.
Proof.
  induction kvs as [|[k' v'] rest IH]; simpl.
  - by rewrite String.eqb_refl.
  - destruct (String.eqb k' k) eqn:E; simpl.
    + by rewrite String.eqb_refl.
    + by rewrite E.
Qed.


Lemma py_in_dict_set k v kvs : py_in k (JObj (assoc_set k v kvs)) = Ok true.
Proof.
  simpl. rewrite assoc_set_lookup. by rewrite bool_decide_eq_true_2.
Qed.

(** ** The registry *)

Module StorageFacts.

Import Storage.

(** Reading the registry never changes it, and a positive answer comes from
    a dict that has a ["users"] entry. *)
Lemma is_user_activated_true_inv chat_id d :
  is_user_activated chat_id d = Ok true →
  ∃ kvs users, load_users d = JObj kvs ∧ assoc "users" kvs = Some users
               ∧ py_in (chat_key chat_id) users = Ok true.
Proof.
  unfold is_user_activated. destruct (load_users d) as [| | | | |kvs]; try done.
  simpl. destruct (assoc "users" kvs) as [users|] eqn:E; simpl.
  - intros H. by exists kvs, users.
  - unfold empty_dict. cbn. intros [=].
Qed.

(** An id that is in the registry: [activate_user] returns [False] and
    hands the disk back as it got it. *)
Lemma activate_user_registered chat_id username now d :
  is_user_activated chat_id d = Ok true →
  activate_user chat_id username now d = (Ok false, d)
  ∧ (activate_user chat_id username now d).2 = d.
Proof.
  intros H. apply is_user_activated_true_inv in H as (kvs & users & Hl & Hu & Hin).
  assert (activate_user chat_id username now d = (Ok false, d)) as Heq.
  { unfold activate_user. rewrite Hl. simpl.
    rewrite bool_decide_eq_true_2 by eauto. simpl.
    rewrite Hu. simpl. by rewrite Hin. }
  by rewrite Heq.
Qed.

Lemma py_in_dict k kvs :
  py_in k (JObj kvs) = Ok (bool_decide (is_Some (assoc k kvs))).
Proof. reflexivity. Qed.

(** What [activate_user] does with a registry dict, by cases. *)
Lemma activate_user_dict chat_id username now d kvs :
  load_users d = JObj kvs →
  activate_user chat_id username now d
  = let data1 := match assoc "users" kvs with
                 | Some _ => kvs
                 | None => assoc_set "users" empty_dict kvs
                 end in
    match assoc "users" data1 with
    | Some (JObj us) =>
        if bool_decide (is_Some (assoc (chat_key chat_id) us)) then (Ok false, d)
        else
          let record := JObj [("username", username); ("activated_at", JStr now)] in
          (Ok true,
           save_users
             (JObj (assoc_set "users"
                      (JObj (assoc_set (chat_key chat_id) record us)) data1)) d)
    | Some users =>
        match (let? present := py_in (chat_key chat_id) users in
               if present then Ok None
               else let? users' := py_setitem users (chat_key chat_id)
                      (JObj [("username", username); ("activated_at", JStr now)]) in
                    Ok (Some users')) with
        | Ok None => (Ok false, d)
        | Ok (Some _) => (Ok true, d)
        | Raise e => (Raise e, d)
        | Diverge => (Diverge, d)
        end
    | None => (Raise KeyError, d)
    end.
Proof.
  intros Hload. unfold activate_user. rewrite Hload, py_in_dict.
  destruct (assoc "users" kvs) as [users|] eqn:Hu.
  - rewrite bool_decide_eq_true_2 by eauto. cbn [negb obind py_index].
    rewrite Hu. cbn [obind].
    destruct users as [|b|z|str|l|us]; try reflexivity.
    + cbn [py_in obind]. by destruct (is_substring _ _).
    + cbn [py_in obind]. by destruct (existsb _ _).
    + rewrite py_in_dict. cbn [obind].
      by destruct (bool_decide (is_Some (assoc (chat_key chat_id) us))).
  - rewrite bool_decide_eq_false_2 by (by intros [? ?]).
    cbn [negb obind py_setitem py_index].
    rewrite assoc_set_lookup. unfold empty_dict. cbn [obind].
    rewrite py_in_dict. cbn [assoc].
    rewrite bool_decide_eq_false_2 by (by intros [? ?]). reflexivity.
Qed.

Lemma is_user_activated_dict chat_id d kvs us :
  load_users d = JObj kvs → assoc "users" kvs = Some (JObj us) →
  is_user_activated chat_id d
  = Ok (bool_decide (is_Some (assoc (chat_key chat_id) us))).
Proof.
  intros Hload Hu. unfold is_user_activated.
  rewrite Hload. cbn [py_get_default obind]. by rewrite Hu.
Qed.

(** C8. For every chat id and every registry file of the shape this
    module writes: the first [activate_user] returns [True] exactly when the
    id was not registered before, a second call with the same id returns
    [False], and from the first call on [is_user_activated] answers
    [True]. *)
Theorem activate_user_twice chat_id u1 t1 u2 t2 d :
  registry_ok d = true →
  ∃ newly d1,
    activate_user chat_id u1 t1 d = (Ok newly, d1)
    ∧ is_user_activated chat_id d = Ok (negb newly)
    ∧ activate_user chat_id u2 t2 d1 = (Ok false, d1)
    ∧ is_user_activated chat_id d1 = Ok true.
Proof.
  unfold registry_ok.
  destruct (load_users d) as [| | | | |kvs] eqn:Hload; try done.
  intros Hok.
  assert (Hsaved : ∀ u t us data1,
            let d1 := save_users
              (JObj (assoc_set "users"
                 (JObj (assoc_set (chat_key chat_id)
                    (JObj [("username", u); ("activated_at", JStr t)]) us)) data1)) d in
            is_user_activated chat_id d1 = Ok true).
  { intros u t us data1 d1.
    rewrite (is_user_activated_dict chat_id d1 _ _ eq_refl (assoc_set_lookup _ _ _)).
    rewrite assoc_set_lookup. by rewrite bool_decide_eq_true_2 by eauto. }
  rewrite (activate_user_dict chat_id u1 t1 d kvs Hload). cbn zeta.
  destruct (assoc "users" kvs) as [users|] eqn:Hu.
  - rewrite Hu. destruct users as [| | | | |us]; try done.
    rewrite (is_user_activated_dict chat_id d kvs us Hload Hu).
    destruct (bool_decide (is_Some (assoc (chat_key chat_id) us))) eqn:Hin.
    + assert (His : is_user_activated chat_id d = Ok true).
      { by rewrite (is_user_activated_dict chat_id d kvs us Hload Hu), Hin. }
      destruct (activate_user_registered chat_id u2 t2 d His) as [H2 _].
      by exists false, d.
    + exists true. eexists. split; [reflexivity|]. split; [done|].
      pose proof (Hsaved u1 t1 us kvs) as His. cbn zeta in His.
      destruct (activate_user_registered chat_id u2 t2 _ His) as [H2 _].
      done.
  - rewrite assoc_set_lookup. unfold empty_dict at 1. cbn [assoc].
    rewrite bool_decide_eq_false_2 by (by intros [? ?]).
    exists true. eexists. split; [reflexivity|]. split.
    + unfold is_user_activated. rewrite Hload. cbn [py_get_default obind].
      rewrite Hu. reflexivity.
    + pose proof (Hsaved u1 t1 [] (assoc_set "users" empty_dict kvs)) as His.
      cbn zeta in His.
      destruct (activate_user_registered chat_id u2 t2 _ His) as [H2 _].
      done.
Qed.

Lemma activate_user_twice_witness :
  ∃ newly d1,
    activate_user 42 (JStr "alice") "2024-01-01T09:00:00" (Build_Disk NoFile 0)
    = (Ok newly, d1)
    ∧ is_user_activated 42 (Build_Disk NoFile 0) = Ok (negb newly)
    ∧ activate_user 42 (JStr "bob") "2024-01-02T09:00:00" d1 = (Ok false, d1)
    ∧ is_user_activated 42 d1 = Ok true.
Proof.
  apply (activate_user_twice 42 (JStr "alice") "2024-01-01T09:00:00"
           (JStr "bob") "2024-01-02T09:00:00" (Build_Disk NoFile 0)).
  reflexivity.
Defined.

(** On a new registry, the first call is the new activation. *)
Example activate_user_new :
  ∃ d1, activate_user 42 (JStr "alice") "2024-01-01T09:00:00" (Build_Disk NoFile 0)
        = (Ok true, d1)
        ∧ activate_user 42 (JStr "bob") "2024-01-02T09:00:00" d1 = (Ok false, d1)
        ∧ is_user_activated 42 d1 = Ok true
        ∧ get_user_info 42 d1
          = Ok (JObj [("username", JStr "alice");
                      ("activated_at", JStr "2024-01-01T09:00:00")]).
Proof. eexists. repeat split. Qed.

(** C10. When the chat id is already in the registry, [activate_user]
    returns [False] and leaves the disk as it was: same file content, no
    write, and the stored record of the id is the one from before. *)
Theorem activate_user_registered_unchanged chat_id username now d :
  is_user_activated chat_id d = Ok true →
  ∃ d', activate_user chat_id username now d = (Ok false, d')
        ∧ d' = d
        ∧ writes d' = writes d
        ∧ get_user_info chat_id d' = get_user_info chat_id d.
Proof.
  intros H. destruct (activate_user_registered chat_id username now d H) as [Heq _].
  by exists d.
Qed.

Lemma activate_user_registered_unchanged_witness :
  ∃ d', activate_user 42 (JStr "bob") "2024-02-02T10:00:00" Fixtures.sample_disk
          = (Ok false, d')
        ∧ d' = Fixtures.sample_disk
        ∧ writes d' = writes Fixtures.sample_disk
        ∧ get_user_info 42 d' = get_user_info 42 Fixtures.sample_disk.
Proof.
  apply (activate_user_registered_unchanged 42 (JStr "bob")
           "2024-02-02T10:00:00" Fixtures.sample_disk).
  reflexivity.
Defined.

End StorageFacts.

(** ** Severity buckets *)

Module BucketFacts.

Import GithubClient.

Lemma elem_of_severity_keys k :
  k ∈ severity_keys ↔ k = "critical" ∨ k = "high" ∨ k = "moderate" ∨ k = "low".
Proof.
  unfold severity_keys. rewrite !elem_of_cons, elem_of_nil. tauto.
Qed.


Lemma bucket_key_in_keys s : bucket_key s ∈ severity_keys.
Proof.
  unfold bucket_key. case_bool_decide; [done|].
  apply elem_of_severity_keys. auto.
Qed.

Lemma alert_key_in_keys alert : alert_key alert ∈ severity_keys.
Proof.
  unfold alert_key. destruct (severity alert); try apply bucket_key_in_keys;
    apply elem_of_severity_keys; auto.
Qed.

Lemma dom_initial_buckets : dom initial_buckets = key_set.
Proof.
  unfold initial_buckets, key_set, severity_keys.
  rewrite !dom_insert_L, dom_empty_L. simpl. set_solver.
Qed.

Lemma lookup_key_set (b : Buckets) k :
  dom b = key_set → k ∈ severity_keys → is_Some (b !! k).
Proof.
  intros Hdom Hk. apply elem_of_dom. rewrite Hdom.
  unfold key_set. by apply elem_of_list_to_set.
Qed.

Lemma lookup_not_key (b : Buckets) k :
  dom b = key_set → k ∉ severity_keys → b !! k = None.
Proof.
  intros Hdom Hk. apply not_elem_of_dom. rewrite Hdom.
  unfold key_set. by rewrite elem_of_list_to_set.
Qed.

(** [bucket_step] against the rule: with the four keys present it appends
    the alert to the bucket named by [bucket_key]. *)
Lemma bucket_step_spec (b : Buckets) alert s :
  dom b = key_set → severity alert = JStr s →
  ∃ bucket, b !! bucket_key s = Some bucket
            ∧ bucket_step b alert = Ok (<[bucket_key s := bucket ++ [alert]]> b).
Proof.
  intros Hdom Hs. unfold bucket_step, bucket_key. rewrite Hs.
  case_bool_decide as Hk.
  - destruct (lookup_key_set b (lower s) Hdom Hk) as [bucket Hb].
    exists bucket. by rewrite Hb.
  - rewrite (lookup_not_key b (lower s) Hdom Hk).
    destruct (lookup_key_set b "low" Hdom) as [bucket Hb].
    { apply elem_of_severity_keys. auto. }
    exists bucket. by rewrite Hb.
Qed.

Lemma bucket_step_dom (b b' : Buckets) alert :
  dom b = key_set → bucket_step b alert = Ok b' → dom b' = key_set.
Proof.
  intros Hdom. unfold bucket_step.
  destruct (severity alert) as [| | |s| |]; try done.
  destruct (b !! lower s) as [bucket|] eqn:E.
  - intros [= <-]. rewrite dom_insert_lookup_L; [done|eauto].
  - destruct (b !! "low") as [bucket|] eqn:E'; [|done].
    intros [= <-]. rewrite dom_insert_lookup_L; [done|eauto].
Qed.

Lemma bucket_step_ok (b : Buckets) alert :
  dom b = key_set → severity_is_str alert = true →
  ∃ bucket, b !! alert_key alert = Some bucket
            ∧ bucket_step b alert
              = Ok (<[alert_key alert := bucket ++ [alert]]> b).
Proof.
  unfold severity_is_str, alert_key. intros Hdom Hs.
  destruct (severity alert) as [| | |s| |] eqn:E; try done.
  by apply bucket_step_spec.
Qed.



Example bucket_key_mixed_case : bucket_key "CriTicAL" = "critical".
Proof. reflexivity. Qed.

Example bucket_key_empty : bucket_key "" = "low".
Proof. reflexivity. Qed.

Example bucket_key_unknown : bucket_key "unknown" = "low".
Proof. reflexivity. Qed.

Example bucket_key_unrecognized : bucket_key "severe" = "low".
Proof. reflexivity. Qed.

Example bucket_key_high : bucket_key "High" = "high".
Proof. reflexivity. Qed.

(** A severity that is no string (a null from the payload) stops the
    loop: [None] has no [lower]. *)
Example bucket_step_null_severity :
  bucket_step initial_buckets
    {| repo_name := "octo/app"; package_name := JStr "pkg"; severity := JNull;
       cve_id := JStr ""; ghsa_id := JStr ""; summary := JStr "";
       vulnerable_version := JStr ""; patched_version := JStr "N/A";
       url := JStr ""; created_at := JStr "" |}
  = Raise AttributeError.
Proof. reflexivity. Qed.

(** The whole loop, from any dict with the four keys: every bucket grows
    by the alerts of its key, in input order. *)
Lemma bucket_loop_spec alerts : ∀ b : Buckets,
  dom b = key_set →
  Forall (λ a, severity_is_str a = true) alerts →
  ∃ b', bucket_loop alerts b = Ok b'
        ∧ dom b' = key_set
        ∧ ∀ k, k ∈ severity_keys →
            b' !! k = Some (default [] (b !! k)
                            ++ filter (λ a, alert_key a = k) alerts).
Proof.
  induction alerts as [|a rest IH]; intros b Hdom Hall.
  - exists b. repeat split; [done|]. intros k Hk.
    destruct (lookup_key_set b k Hdom Hk) as [l Hl].
    rewrite Hl. simpl. by rewrite app_nil_r.
  - apply Forall_cons in Hall as [Ha Hrest].
    destruct (bucket_step_ok b a Hdom Ha) as (bucket & Hb & Hstep).
    simpl. rewrite Hstep. simpl.
    destruct (IH (<[alert_key a := bucket ++ [a]]> b)) as (b' & Hloop & Hdom' & Hb').
    { rewrite dom_insert_lookup_L; [done|eauto]. }
    { done. }
    exists b'. split; [done|]. split; [done|].
    intros k Hk. rewrite (Hb' k Hk).
    destruct (decide (alert_key a = k)) as [Heq|Hne].
    + subst k. rewrite lookup_insert_eq, Hb. simpl.
      rewrite filter_cons_True by done. by rewrite <- app_assoc.
    + rewrite lookup_insert_ne by done.
      by rewrite filter_cons_False.
Qed.

Lemma filter_keys_length (alerts : list SecurityAlert) :
  (length (filter (λ a, alert_key a = "critical") alerts)
   + length (filter (λ a, alert_key a = "high") alerts)
   + length (filter (λ a, alert_key a = "moderate") alerts)
   + length (filter (λ a, alert_key a = "low") alerts)
   = length alerts)%nat.
Proof.
  induction alerts as [|a rest IH]; [done|].
  pose proof (alert_key_in_keys a) as Hk.
  apply elem_of_severity_keys in Hk.
  rewrite !filter_cons.
  destruct Hk as [Hk|[Hk|[Hk|Hk]]]; rewrite Hk;
    repeat case_decide; try done; simpl; lia.
Qed.

Lemma buckets_four (b : Buckets) l1 l2 l3 l4 :
  dom b = key_set →
  b !! "critical" = Some l1 → b !! "high" = Some l2 →
  b !! "moderate" = Some l3 → b !! "low" = Some l4 →
  b = <["critical" := l1]> (<["high" := l2]> (<["moderate" := l3]>
        (<["low" := l4]> ∅))).
Proof.
  intros Hdom H1 H2 H3 H4. apply map_eq. intros i.
  destruct (decide (i = "critical")) as [->|N1]; [by rewrite lookup_insert_eq|].
  rewrite lookup_insert_ne by done.
  destruct (decide (i = "high")) as [->|N2]; [by rewrite lookup_insert_eq|].
  rewrite lookup_insert_ne by done.
  destruct (decide (i = "moderate")) as [->|N3]; [by rewrite lookup_insert_eq|].
  rewrite lookup_insert_ne by done.
  destruct (decide (i = "low")) as [->|N4]; [by rewrite lookup_insert_eq|].
  rewrite lookup_insert_ne, lookup_empty by done.
  apply lookup_not_key; [done|].
  rewrite elem_of_severity_keys. tauto.
Qed.

Lemma total_alerts_four (b : Buckets) l1 l2 l3 l4 :
  dom b = key_set →
  b !! "critical" = Some l1 → b !! "high" = Some l2 →
  b !! "moderate" = Some l3 → b !! "low" = Some l4 →
  total_alerts b = (length l1 + length l2 + length l3 + length l4)%nat.
Proof.
  intros Hdom H1 H2 H3 H4.
  rewrite (buckets_four b l1 l2 l3 l4) by done.
  unfold total_alerts.
  rewrite !map_to_list_insert, map_to_list_empty; simpl; [lia|..];
    by repeat (rewrite lookup_insert_ne by done); rewrite ?lookup_empty.
Qed.

(** C5. Bucketing a sequence of alerts whose severities are strings,
    starting from the four empty buckets, succeeds; the result has exactly
    the keys critical, high, moderate, low; the bucket of a key is the
    sub-sequence of the input alerts of that key, in input order; every
    input alert is in exactly one bucket; and the bucket lengths add up to
    the number of input alerts. *)
Theorem bucket_loop_partitions (alerts : list SecurityAlert) :
  Forall (λ a, severity_is_str a = true) alerts →
  ∃ b : Buckets,
    bucket_loop alerts initial_buckets = Ok b
    ∧ dom b = key_set
    ∧ (∀ k, k ∈ severity_keys →
         b !! k = Some (filter (λ a, alert_key a = k) alerts))
    ∧ (∀ a, a ∈ alerts → exists ! k, ∃ l, b !! k = Some l ∧ a ∈ l)
    ∧ (length (default [] (b !! "critical")) + length (default [] (b !! "high"))
       + length (default [] (b !! "moderate")) + length (default [] (b !! "low"))
       = length alerts)%nat
    ∧ total_alerts b = length alerts.
Proof.
  intros Hall.
  destruct (bucket_loop_spec alerts initial_buckets dom_initial_buckets Hall)
    as (b & Hloop & Hdom & Hb).
  assert (Hbk : ∀ k, k ∈ severity_keys →
            b !! k = Some (filter (λ a, alert_key a = k) alerts)).
  { intros k Hk. rewrite (Hb k Hk).
    destruct (lookup_key_set initial_buckets k dom_initial_buckets Hk) as [l Hl].
    apply elem_of_severity_keys in Hk.
    destruct Hk as [-> | [-> | [-> | ->]]]; reflexivity. }
  assert (Hc := Hbk "critical"). assert (Hh := Hbk "high").
  assert (Hm := Hbk "moderate"). assert (Hl := Hbk "low").
  rewrite elem_of_severity_keys in Hc, Hh, Hm, Hl.
  specialize (Hc ltac:(tauto)). specialize (Hh ltac:(tauto)).
  specialize (Hm ltac:(tauto)). specialize (Hl ltac:(tauto)).
  exists b. repeat split; try done.
  - intros a Ha. exists (alert_key a). split.
    + eexists. split; [apply Hbk, alert_key_in_keys|].
      apply list_elem_of_filter. done.
    + intros k (l & Hk & Hal).
      assert (k ∈ severity_keys) as Hks.
      { apply elem_of_dom_2 in Hk. rewrite Hdom in Hk.
        unfold key_set in Hk. by apply elem_of_list_to_set in Hk. }
      rewrite (Hbk k Hks) in Hk. injection Hk as <-.
      apply list_elem_of_filter in Hal as [Hkey _]. done.
  - rewrite Hc, Hh, Hm, Hl. simpl. apply filter_keys_length.
  - rewrite (total_alerts_four b _ _ _ _ Hdom Hc Hh Hm Hl).
    apply filter_keys_length.
Qed.

Lemma bucket_loop_partitions_witness :
  ∃ b : Buckets,
    bucket_loop [Fixtures.sample_alert "HIGH" 1; Fixtures.sample_alert "critical" 2;
                 Fixtures.sample_alert "" 3] initial_buckets = Ok b
    ∧ dom b = key_set
    ∧ (∀ k, k ∈ severity_keys →
         b !! k = Some (filter (λ a, alert_key a = k)
                          [Fixtures.sample_alert "HIGH" 1;
                           Fixtures.sample_alert "critical" 2;
                           Fixtures.sample_alert "" 3]))
    ∧ (∀ a, a ∈ [Fixtures.sample_alert "HIGH" 1; Fixtures.sample_alert "critical" 2;
                 Fixtures.sample_alert "" 3] →
         exists ! k, ∃ l, b !! k = Some l ∧ a ∈ l)
    ∧ (length (default [] (b !! "critical")) + length (default [] (b !! "high"))
       + length (default [] (b !! "moderate")) + length (default [] (b !! "low"))
       = length [Fixtures.sample_alert "HIGH" 1; Fixtures.sample_alert "critical" 2;
                 Fixtures.sample_alert "" 3])%nat
    ∧ total_alerts b
      = length [Fixtures.sample_alert "HIGH" 1; Fixtures.sample_alert "critical" 2;
                Fixtures.sample_alert "" 3].
Proof.
  apply (bucket_loop_partitions
           [Fixtures.sample_alert "HIGH" 1; Fixtures.sample_alert "critical" 2;
            Fixtures.sample_alert "" 3]).
  repeat constructor.
Defined.

End BucketFacts.

(** ** Normalisation *)

Module NormalizeFacts.

Import GithubClient.

Lemma dict_or_falsy_or v :
  dict_or_falsy v = true →
  ∃ kvs, py_or v empty_dict = JObj kvs ∧ ∀ k, field v k = assoc k kvs.
Proof.
  unfold py_or, empty_dict.
  destruct v as [|b|z|s|l|kvs]; simpl; intros H.
  - by exists [].
  - apply negb_true_iff in H. rewrite H. by exists [].
  - apply negb_true_iff in H. rewrite H. by exists [].
  - apply negb_true_iff in H. rewrite H. by exists [].
  - apply negb_true_iff in H. rewrite H. by exists [].
  - destruct kvs as [|kv kvs]; [by exists []|]. by eexists.
Qed.

Lemma dict_or_falsy_get v k :
  dict_or_falsy v = true →
  ∃ r, (if truthy v then py_get v k else Ok (JStr "N/A")) = Ok r
       ∧ (truthy v = false → r = JStr "N/A").
Proof.
  destruct v as [|b|z|s|l|kvs]; simpl; intros H;
    try (apply negb_true_iff in H; rewrite H; by eexists).
  - by eexists.
  - destruct kvs; [by eexists|]. eexists. split; [done|]. done.
Qed.

Lemma absent_or_null_falsy v k : absent_or_null v k → truthy (nested v k) = false.
Proof. unfold absent_or_null, nested. by intros [-> | ->]. Qed.

Section Normalize.

Variable fmt : JSON → string.
Variables owner repo : JSON.

(** One record: no exception, and the documented defaults. *)
Lemma normalize_ok alert :
  raw_alert_ok alert = true →
  ∃ a, normalize fmt owner repo alert = Ok a
       ∧ repo_name a = fmt owner +:+ "/" +:+ fmt repo
       ∧ documented_defaults alert a.
Proof.
  unfold raw_alert_ok.
  destruct alert as [| | | | |kvs]; try done.
  rewrite !andb_true_iff. intros [[[Hsa Hsv] Hfp] Hpk].
  destruct (dict_or_falsy_or _ Hsa) as (adv & Eadv & Fadv).
  destruct (dict_or_falsy_or _ Hsv) as (vul & Evul & Fvul).
  destruct (dict_or_falsy_or _ Hpk) as (pkg & Epkg & Fpkg).
  destruct (dict_or_falsy_get _ "identifier" Hfp) as (patched & Epatched & Fpatched).
  unfold nested, field in Eadv, Evul. fold (assoc "security_advisory" kvs) in Eadv.
  unfold normalize. cbn [py_get obind].
  rewrite Eadv, Evul. cbn [py_get py_get_default obind].
  assert (Hnv : ∀ k, nested (nested (JObj kvs) "security_vulnerability") k
                     = default JNull (assoc k vul)).
  { intros k. unfold nested at 1. by rewrite Fvul. }
  rewrite Hnv in Epatched, Epkg.
  rewrite Epatched. cbn [obind]. rewrite Epkg. cbn [py_get_default obind].
  eexists. split; [reflexivity|]. split; [reflexivity|].
  unfold documented_defaults. cbn [package_name severity cve_id ghsa_id summary
    vulnerable_version patched_version url created_at].
  repeat split.
  - rewrite Fpkg. by intros ->.
  - rewrite Fadv. by intros ->.
  - unfold absent_or_null. rewrite Fadv. by intros [-> | ->].
  - unfold absent_or_null. rewrite Fadv. by intros [-> | ->].
  - rewrite Fadv. by intros ->.
  - rewrite Fvul. by intros ->.
  - intros Hnull. apply Fpatched. by apply absent_or_null_falsy.
  - simpl. by intros ->.
  - simpl. by intros ->.
Qed.

(** C1. For every sequence of raw alert records, the normalisation loop
    runs to its end without an exception, whatever nested objects and
    fields are missing or null, and produces one alert per record; each
    alert holds the documented default wherever the record lacks the
    source value. *)
Theorem normalize_loop_never_raises (data : list JSON) (acc : list SecurityAlert) :
  Forall (λ raw, raw_alert_ok raw = true) data →
  ∃ alerts,
    normalize_loop fmt owner repo data acc = Completed (acc ++ alerts)
    ∧ Forall2 (λ raw a, normalize fmt owner repo raw = Ok a
                        ∧ repo_name a = fmt owner +:+ "/" +:+ fmt repo
                        ∧ documented_defaults raw a) data alerts.
Proof.
  revert acc. induction data as [|raw rest IH]; intros acc Hall.
  - exists []. simpl. by rewrite app_nil_r.
  - apply Forall_cons in Hall as [Hraw Hrest].
    destruct (normalize_ok raw Hraw) as (a & Hn & Hname & Hdef).
    destruct (IH (acc ++ [a]) Hrest) as (alerts & Hloop & Hall).
    exists (a :: alerts). simpl. rewrite Hn, Hloop. split.
    + by rewrite <- app_assoc.
    + by constructor.
Qed.

End Normalize.

Lemma normalize_loop_never_raises_witness :
  ∃ alerts,
    normalize_loop Fixtures.sample_fmt (JStr "octo") (JStr "app")
      [Fixtures.raw_empty; Fixtures.raw_nulls; Fixtures.raw_full "high"] []
    = Completed ([] ++ alerts)
    ∧ Forall2 (λ raw a,
                 normalize Fixtures.sample_fmt (JStr "octo") (JStr "app") raw = Ok a
                 ∧ repo_name a = Fixtures.sample_fmt (JStr "octo") +:+ "/"
                                 +:+ Fixtures.sample_fmt (JStr "app")
                 ∧ documented_defaults raw a)
        [Fixtures.raw_empty; Fixtures.raw_nulls; Fixtures.raw_full "high"] alerts.
Proof.
  apply (normalize_loop_never_raises Fixtures.sample_fmt (JStr "octo") (JStr "app")
           [Fixtures.raw_empty; Fixtures.raw_nulls; Fixtures.raw_full "high"] []).
  repeat constructor.
Defined.

Example normalize_raw_empty :
  normalize Fixtures.sample_fmt (JStr "octo") (JStr "app") Fixtures.raw_empty
  = Ok {| repo_name := "octo/app"; package_name := JStr "unknown";
          severity := JStr "unknown"; cve_id := JStr ""; ghsa_id := JStr "";
          summary := JStr "No description"; vulnerable_version := JStr "";
          patched_version := JStr "N/A"; url := JStr ""; created_at := JStr "" |}.
Proof. reflexivity. Qed.

Example normalize_raw_nulls :
  normalize Fixtures.sample_fmt (JStr "octo") (JStr "app") Fixtures.raw_nulls
  = normalize Fixtures.sample_fmt (JStr "octo") (JStr "app") Fixtures.raw_empty.
Proof. reflexivity. Qed.

(** A severity that is present but null is kept as [None]: [dict.get]
    falls back to its default only when the key is missing. *)
Example normalize_null_severity :
  ∃ a, normalize Fixtures.sample_fmt (JStr "octo") (JStr "app")
         (JObj [("security_advisory", JObj [("severity", JNull)])]) = Ok a
       ∧ severity a = JNull.
Proof. eexists. split; reflexivity. Qed.

(** A nesting level that holds a non-empty value other than an object
    makes the field access fail. *)
Example normalize_advisory_string :
  normalize Fixtures.sample_fmt (JStr "octo") (JStr "app")
    (JObj [("security_advisory", JStr "oops")]) = Raise AttributeError.
Proof. reflexivity. Qed.

End NormalizeFacts.

(** ** The report *)

Module RenderFacts.

Import GithubClient.

Section Render.

Variable fmt : JSON → string.



Lemma total_alerts_bucket (alerts : Buckets) severity l :
  alerts !! severity = Some l → (length l ≤ total_alerts alerts)%nat.
Proof.
  intros H. unfold total_alerts.
  apply (sum_list_with_in (severity, l) (λ kv, length kv.2)).
  by apply elem_of_map_to_list.
Qed.

Lemma report_lines_sections (alerts : Buckets) :
  report_lines fmt alerts
  = report_head (total_alerts alerts)
    ++ section_lines fmt alerts "critical" ++ section_lines fmt alerts "high"
    ++ section_lines fmt alerts "moderate" ++ section_lines fmt alerts "low"
    ++ [recommendation].
Proof. unfold report_lines. simpl. by rewrite <- !app_assoc. Qed.


End Render.


(** Fifteen critical alerts: ten entries, then the line for the other
    five. *)
Example fifteen_critical_section :
  section_lines Fixtures.sample_fmt Fixtures.fifteen_critical_buckets "critical"
  = [section_header "critical" 15; section_rule]
    ++ concat (map (alert_lines Fixtures.sample_fmt)
                 (map (Fixtures.sample_alert "critical") (seq 1 10)))
    ++ ["   ... и ещё 5"].
Proof. vm_compute. reflexivity. Qed.

Example fifteen_critical_entries :
  length (filter (λ line, String.prefix "📦" line = true)
            (section_lines Fixtures.sample_fmt Fixtures.fifteen_critical_buckets
               "critical")) = 10%nat.
Proof. vm_compute. reflexivity. Qed.

Example all_clear_report :
  format_alerts_report Fixtures.sample_fmt initial_buckets = all_clear.
Proof. vm_compute. reflexivity. Qed.

End RenderFacts.

(** ** Repository listing *)

Module ListingFacts.

Import GithubClient.

Section Listing.

Variable srv : Server.
Variable token : string.

Lemma page_requests_S first n :
  page_requests token first (S n)
  = repos_request token first :: page_requests token (first + 1) n.
Proof.
  unfold page_requests. simpl. rewrite Z.add_0_r. f_equal.
  rewrite <- seq_shift, map_map. apply map_ext. intros i.
  f_equal. lia.
Qed.

Lemma page_requests_per_page first n :
  Forall (λ r, assoc "per_page" (req_params r) = Some (JNum 100))
    (page_requests token first n).
Proof. unfold page_requests. apply Forall_map, Forall_true. done. Qed.

(** One round of the loop, by what the service answers. *)
Lemma loop_step_page fuel page repos log items :
  page_of (srv log (repos_request token page)) = Some (JArr items) →
  items ≠ [] →
  get_user_repos_loop srv token (S fuel) page repos log
  = get_user_repos_loop srv token fuel (page + 1) (repos ++ items)
      (log ++ [repos_request token page]).
Proof.
  intros Hpage Hne. cbn [get_user_repos_loop].
  unfold bind at 1. unfold requests_get.
  destruct (srv log (repos_request token page)) as [|st body]; [done|].
  simpl in Hpage. unfold bind, lift, raise_for_status. simpl.
  destruct ((400 <=? st) && (st <? 600)); [done|].
  subst body. simpl. by destruct items.
Qed.

Lemma loop_step_last fuel page repos log last :
  page_of (srv log (repos_request token page)) = Some last →
  truthy last = false →
  get_user_repos_loop srv token (S fuel) page repos log
  = (Ok repos, log ++ [repos_request token page]).
Proof.
  intros Hpage Hfalsy. cbn [get_user_repos_loop].
  unfold bind at 1. unfold requests_get.
  destruct (srv log (repos_request token page)) as [|st body]; [done|].
  simpl in Hpage. unfold bind, lift, raise_for_status. simpl.
  destruct ((400 <=? st) && (st <? 600)); [done|].
  subst body. simpl. by rewrite Hfalsy.
Qed.

Lemma loop_step_fail fuel page repos log :
  page_of (srv log (repos_request token page)) = None →
  get_user_repos_loop srv token (S fuel) page repos log
  = (Raise RequestException, log ++ [repos_request token page]).
Proof.
  intros Hpage. cbn [get_user_repos_loop].
  unfold bind at 1. unfold requests_get.
  destruct (srv log (repos_request token page)) as [|st body]; [done|].
  simpl in Hpage. unfold bind, lift, raise_for_status. simpl.
  destruct ((400 <=? st) && (st <? 600)); [done|].
  by subst body.
Qed.

(** The loop over a run of non-empty pages that ends with an empty one. *)
Lemma loop_collects pages : ∀ fuel page repos log last,
  serves_pages srv token log page pages (Some last) →
  truthy last = false →
  (length pages < fuel)%nat →
  get_user_repos_loop srv token fuel page repos log
  = (Ok (repos ++ concat pages),
     log ++ page_requests token page (S (length pages))).
Proof.
  induction pages as [|items rest IH]; intros fuel page repos log last Hs Hf Hfuel.
  - destruct fuel as [|fuel]; [simpl in Hfuel; lia|].
    simpl in Hs. rewrite (loop_step_last _ _ _ _ last) by done.
    rewrite page_requests_S. simpl. by rewrite app_nil_r.
  - destruct fuel as [|fuel]; [simpl in Hfuel; lia|].
    destruct Hs as (Hne & Hpage & Hrest).
    rewrite (loop_step_page _ _ _ _ items) by done.
    rewrite (IH fuel (page + 1) (repos ++ items) _ last) by (simpl in *; done || lia).
    rewrite (page_requests_S page). simpl.
    by rewrite <- !app_assoc.
Qed.

(** With too little fuel for the pages served, the model runs out: the
    loop does not stop before the empty page. *)
Lemma loop_needs_every_page pages : ∀ fuel page repos log last,
  serves_pages srv token log page pages last →
  (fuel ≤ length pages)%nat →
  (get_user_repos_loop srv token fuel page repos log).1 = Diverge.
Proof.
  induction pages as [|items rest IH]; intros fuel page repos log last Hs Hfuel.
  - simpl in Hfuel. by replace fuel with 0%nat by lia.
  - destruct fuel as [|fuel]; [done|].
    destruct Hs as (Hne & Hpage & Hrest).
    rewrite (loop_step_page _ _ _ _ items) by done.
    apply (IH _ _ _ _ last); [done|]. simpl in Hfuel. lia.
Qed.

(** The loop over a run of non-empty pages that ends with a failure. *)
Lemma loop_fails pages : ∀ fuel page repos log,
  serves_pages srv token log page pages None →
  (length pages < fuel)%nat →
  get_user_repos_loop srv token fuel page repos log
  = (Raise RequestException,
     log ++ page_requests token page (S (length pages))).
Proof.
  induction pages as [|items rest IH]; intros fuel page repos log Hs Hfuel.
  - destruct fuel as [|fuel]; [simpl in Hfuel; lia|].
    simpl in Hs. rewrite loop_step_fail by done.
    by rewrite page_requests_S.
  - destruct fuel as [|fuel]; [simpl in Hfuel; lia|].
    destruct Hs as (Hne & Hpage & Hrest).
    rewrite (loop_step_page _ _ _ _ items) by done.
    rewrite IH by (simpl in *; done || lia).
    rewrite (page_requests_S page). simpl.
    by rewrite <- !app_assoc.
Qed.

(** C7. When the service answers the listing requests for pages 1, 2, ...
    with non-empty pages and then with an empty one, [get_user_repos]
    returns the concatenation of the non-empty pages in order, having
    issued one request per page and one for the empty page, each with
    [per_page] 100, for the pages 1, 2, ... in turn; and it does not stop
    before the empty page. *)
Theorem get_user_repos_concatenates_pages pages last fuel log :
  serves_pages srv token log 1 pages (Some last) →
  truthy last = false →
  (length pages < fuel)%nat →
  get_user_repos srv token fuel log
  = (Ok (concat pages), log ++ page_requests token 1 (S (length pages)))
  ∧ Forall (λ r, assoc "per_page" (req_params r) = Some (JNum 100))
      (page_requests token 1 (S (length pages)))
  ∧ (∀ fuel', (fuel' ≤ length pages)%nat →
       (get_user_repos srv token fuel' log).1 = Diverge).
Proof.
  intros Hs Hf Hfuel. unfold get_user_repos. split; [|split].
  - by rewrite (loop_collects pages fuel 1 [] log last).
  - apply page_requests_per_page.
  - intros fuel' Hle. by apply (loop_needs_every_page pages _ _ _ _ (Some last)).
Qed.

End Listing.

Lemma get_user_repos_concatenates_pages_witness :
  get_user_repos Fixtures.github_many "tok" 3 []
  = (Ok (concat [take 100 Fixtures.many_repos; drop 100 Fixtures.many_repos]),
     [] ++ page_requests "tok" 1 3)
  ∧ Forall (λ r, assoc "per_page" (req_params r) = Some (JNum 100))
      (page_requests "tok" 1 3)
  ∧ (∀ fuel', (fuel' ≤ 2)%nat →
       (get_user_repos Fixtures.github_many "tok" fuel' []).1 = Diverge).
Proof.
  apply (get_user_repos_concatenates_pages Fixtures.github_many "tok"
           [take 100 Fixtures.many_repos; drop 100 Fixtures.many_repos]
           (JArr []) 3 []).
  - repeat split; by vm_compute.
  - reflexivity.
  - simpl. lia.
Defined.

Example get_user_repos_three :
  get_user_repos Fixtures.github "tok" 2 []
  = (Ok Fixtures.three_repos, page_requests "tok" 1 2).
Proof. vm_compute. reflexivity. Qed.

End ListingFacts.

(** ** Fetching and aggregating *)

Module AggregationFacts.

Import GithubClient.

Lemma bind_assoc {A B C} (c : IO A) (k : A → IO B) (k' : B → IO C) log :
  bind (bind c k) k' log = bind c (λ x, bind (k x) k') log.
Proof. unfold bind. by destruct (c log) as [[a|e|] log']. Qed.

Lemma bind_ext {A B} (c : IO A) (k k' : A → IO B) log :
  (∀ x log', k x log' = k' x log') → bind c k log = bind c k' log.
Proof. intros H. unfold bind. by destruct (c log) as [[a|e|] log']. Qed.



Section Aggregation.

Variable srv : Server.
Variable fmt : JSON → string.
Variable token : string.

Abbreviation fetch := (get_dependabot_alerts srv fmt token).
Abbreviation scan := (repos_loop srv fmt token).
Abbreviation alerts_req := (alerts_request fmt token).

(** The fetch issues one request, whatever comes back. *)
Lemma get_dependabot_alerts_log owner repo log :
  (fetch owner repo log).2 = log ++ [alerts_req owner repo].
Proof.
  unfold get_dependabot_alerts, try_block, requests_get.
  destruct (srv log (alerts_req owner repo)) as [|st body]; [done|].
  destruct ((st =? 403) || (st =? 404)); [done|].
  destruct (raise_for_status st) as [[]|[]|]; try done.
  destruct (response_json body) as [data|[]|]; try done.
  destruct (py_iter data) as [items|[]|]; try done.
  by destruct (normalize_loop fmt owner repo items []) as [?|?|[] ?|].
Qed.


Lemma repos_loop_app r1 : ∀ r2 all_alerts log,
  scan (r1 ++ r2) all_alerts log
  = bind (scan r1 all_alerts) (λ acc, scan r2 acc) log.
Proof.
  induction r1 as [|repo rest IH]; intros r2 all_alerts log; [done|].
  cbn [app repos_loop].
  rewrite bind_assoc. apply bind_ext. intros owner log1.
  rewrite bind_assoc. apply bind_ext. intros name log2.
  rewrite bind_assoc. apply bind_ext. intros alerts log3.
  rewrite bind_assoc. apply bind_ext. intros acc log4.
  apply IH.
Qed.




(** C3. When a listing request fails after any number of good pages
    (no connection, a 4xx or 5xx status, or a body that is no JSON),
    [get_all_alerts] raises the request exception to its caller, having
    issued the listing requests only; the daily job then sends no message
    and the update command answers with the error text, not a report. *)
Theorem listing_failure_aborts pages fuel log chat_ids :
  serves_pages srv token log 1 pages None →
  (length pages < fuel)%nat →
  get_all_alerts srv fmt token fuel log
  = (Raise RequestException, log ++ page_requests token 1 (S (length pages)))
  ∧ (Monitor.send_daily_report srv fmt token fuel chat_ids log).1 = Ok []
  ∧ (Monitor.update_command_reply srv fmt token fuel log).1
    = Ok (Monitor.ErrorText RequestException).
Proof.
  intros Hs Hfuel.
  assert (Hall : get_all_alerts srv fmt token fuel log
                 = (Raise RequestException,
                    log ++ page_requests token 1 (S (length pages)))).
  { unfold get_all_alerts, bind, get_user_repos.
    by rewrite (ListingFacts.loop_fails srv token pages fuel 1 [] log). }
  split; [done|]. split.
  - unfold Monitor.send_daily_report. destruct chat_ids; [done|].
    by rewrite Hall.
  - unfold Monitor.update_command_reply. by rewrite Hall.
Qed.

Lemma normalize_loop_length owner repo items : ∀ acc,
  match normalize_loop fmt owner repo items acc with
  | Returned value => False
  | Completed alerts => length alerts = (length acc + length items)%nat
  | Raised _ alerts => (length alerts ≤ length acc + length items)%nat
  | OutOfFuel => True
  end.
Proof.
  induction items as [|raw rest IH]; intros acc; simpl.
  - lia.
  - destruct (normalize fmt owner repo raw) as [a|e|]; [|simpl; lia|done].
    specialize (IH (acc ++ [a])). rewrite length_app in IH. simpl in IH.
    destruct (normalize_loop fmt owner repo rest (acc ++ [a])); try done; lia.
Qed.

Lemma normalize_loop_strs owner repo (strs : list string) acc :
  normalize_loop fmt owner repo (map JStr strs) acc
  = match strs with [] => Completed acc | _ => Raised AttributeError acc end.
Proof. by destruct strs. Qed.

(** C9. The fetch of one repository issues exactly one request, with
    [per_page] 100 and no page number; so, with a service that returns no
    more items than [per_page] asks for, it returns at most 100 alerts. *)
Theorem alerts_fetch_single_page owner repo log :
  honours_per_page (alerts_req owner repo) (srv log (alerts_req owner repo)) = true →
  (fetch owner repo log).2 = log ++ [alerts_req owner repo]
  ∧ req_params (alerts_req owner repo)
    = [("state", JStr "open"); ("per_page", JNum 100)]
  ∧ match (fetch owner repo log).1 with
    | Ok alerts => (length alerts ≤ 100)%nat
    | _ => True
    end.
Proof.
  intros Hh. split; [apply get_dependabot_alerts_log|]. split; [done|].
  unfold honours_per_page in Hh.
  unfold get_dependabot_alerts, try_block, requests_get.
  destruct (srv log (alerts_req owner repo)) as [|st body]; [simpl; lia|].
  destruct ((st =? 403) || (st =? 404)); [simpl; lia|].
  destruct (raise_for_status st) as [[]|[]|]; try (simpl; lia); try done.
  destruct body as [data|]; [|simpl; lia]. simpl.
  destruct data as [| | |str|items|kvs]; simpl; try done.
  - rewrite normalize_loop_strs. destruct (utf8_chars str); simpl; [lia|done].
  - apply bool_decide_eq_true in Hh.
    pose proof (normalize_loop_length owner repo items []) as Hlen.
    destruct (normalize_loop fmt owner repo items []) as [?|?|[] ?|];
      simpl in *; try done; lia.
  - rewrite <- (map_map fst JStr), normalize_loop_strs.
    destruct (map fst kvs); simpl; [lia|done].
Qed.

End Aggregation.


Lemma listing_failure_aborts_witness :
  get_all_alerts Fixtures.github_broken Fixtures.sample_fmt "tok" 2 []
  = (Raise RequestException, [] ++ page_requests "tok" 1 2)
  ∧ (Monitor.send_daily_report Fixtures.github_broken Fixtures.sample_fmt "tok" 2
       [42; 43] []).1 = Ok []
  ∧ (Monitor.update_command_reply Fixtures.github_broken Fixtures.sample_fmt "tok"
       2 []).1 = Ok (Monitor.ErrorText RequestException).
Proof.
  apply (listing_failure_aborts Fixtures.github_broken Fixtures.sample_fmt "tok"
           [Fixtures.three_repos] 2 [] [42; 43]).
  - repeat split; by vm_compute.
  - simpl. lia.
Defined.

Lemma alerts_fetch_single_page_witness :
  (get_dependabot_alerts Fixtures.github Fixtures.sample_fmt "tok"
     (JStr "octo") (JStr "big") []).2
  = [] ++ [alerts_request Fixtures.sample_fmt "tok" (JStr "octo") (JStr "big")]
  ∧ req_params (alerts_request Fixtures.sample_fmt "tok" (JStr "octo") (JStr "big"))
    = [("state", JStr "open"); ("per_page", JNum 100)]
  ∧ match (get_dependabot_alerts Fixtures.github Fixtures.sample_fmt "tok"
             (JStr "octo") (JStr "big") []).1 with
    | Ok alerts => (length alerts ≤ 100)%nat
    | _ => True
    end.
Proof.
  apply (alerts_fetch_single_page Fixtures.github Fixtures.sample_fmt "tok"
           (JStr "octo") (JStr "big") []).
  vm_compute. reflexivity.
Defined.

(** A repository with 150 open alerts: the fetch returns the first 100. *)
Example fetch_of_150_returns_100 :
  ∃ alerts log,
    get_dependabot_alerts Fixtures.github Fixtures.sample_fmt "tok"
      (JStr "octo") (JStr "big") [] = (Ok alerts, log)
    ∧ length alerts = 100%nat ∧ length log = 1%nat.
Proof. eexists _, _. split; [vm_compute; reflexivity|]. split; reflexivity. Qed.

(** octo/lib answers 403: the result holds the alerts of octo/app and of
    octo/old. *)
Example get_all_alerts_skips_403 :
  ∃ (result : Buckets) log,
    get_all_alerts Fixtures.github Fixtures.sample_fmt "tok" 2 [] = (Ok result, log)
    ∧ map repo_name <$> result !! "critical" = Some ["octo/old"]
    ∧ map repo_name <$> result !! "high" = Some ["octo/app"]
    ∧ map repo_name <$> result !! "moderate" = Some []
    ∧ map repo_name <$> result !! "low" = Some ["octo/app"]
    ∧ length log = 5%nat.
Proof. eexists _, _. split; [vm_compute; reflexivity|]. repeat split. Qed.

End AggregationFacts.

(** * Further properties *)

(** ** The registry: storing, looking up, leaving the rest alone *)

Module StorageMore.

Import Storage.

Lemma registry_ok_inv d :
  registry_ok d = true →
  ∃ kvs, load_users d = JObj kvs
         ∧ (assoc "users" kvs = None ∧ users_of d = []
            ∨ assoc "users" kvs = Some (JObj (users_of d))).
Proof.
  unfold registry_ok, users_of.
  destruct (load_users d) as [| | | | |kvs]; try done.
  intros H. exists kvs. split; [done|].
  destruct (assoc "users" kvs) as [[| | | | |us]|]; try done; auto.
Qed.

(** The two queries read the ["users"] dict. *)
Lemma is_user_activated_users chat_id d :
  registry_ok d = true →
  is_user_activated chat_id d
  = Ok (bool_decide (is_Some (assoc (chat_key chat_id) (users_of d)))).
Proof.
  intros Hok. destruct (registry_ok_inv d Hok) as (kvs & Hl & [[Hu Hnil]|Hu]).
  - unfold is_user_activated. rewrite Hl, Hnil. cbn [py_get_default obind].
    by rewrite Hu.
  - by apply (StorageFacts.is_user_activated_dict chat_id d kvs).
Qed.

Lemma get_user_info_users chat_id d :
  registry_ok d = true →
  get_user_info chat_id d = Ok (default JNull (assoc (chat_key chat_id) (users_of d))).
Proof.
  intros Hok. destruct (registry_ok_inv d Hok) as (kvs & Hl & [[Hu Hnil]|Hu]);
    unfold get_user_info; rewrite Hl; cbn [py_get_default obind]; rewrite Hu.
  - by rewrite Hnil.
  - reflexivity.
Qed.

(** [activate_user] on a registry of the expected shape. *)
Lemma activate_user_ok chat_id username now d :
  registry_ok d = true →
  if bool_decide (is_Some (assoc (chat_key chat_id) (users_of d)))
  then activate_user chat_id username now d = (Ok false, d)
  else ∃ d1, activate_user chat_id username now d = (Ok true, d1)
             ∧ users_of d1
               = assoc_set (chat_key chat_id) (registration username now) (users_of d)
             ∧ registry_ok d1 = true
             ∧ writes d1 = S (writes d).
Proof.
  intros Hok. destruct (registry_ok_inv d Hok) as (kvs & Hl & Hcase).
  rewrite (StorageFacts.activate_user_dict chat_id username now d kvs Hl).
  cbn zeta. destruct Hcase as [[Hu Hnil]|Hu]; rewrite Hu.
  - rewrite Hnil. rewrite assoc_set_lookup. unfold empty_dict at 1. cbn [assoc].
    rewrite !bool_decide_eq_false_2 by (by intros [? ?]).
    eexists. split; [reflexivity|].
    unfold users_of, registry_ok, load_users, save_users. cbn [file writes].
    by rewrite !assoc_set_lookup.
  - rewrite Hu.
    destruct (bool_decide (is_Some (assoc (chat_key chat_id) (users_of d))));
      [done|].
    eexists. split; [reflexivity|].
    unfold users_of at 1, registry_ok, load_users, save_users. cbn [file writes].
    by rewrite !assoc_set_lookup.
Qed.



(** X1. Activating a chat that is not registered stores its record:
    [get_user_info] then returns the user name and the activation time of
    that call. *)
Theorem activate_user_stores_record chat_id username now d :
  registry_ok d = true →
  is_user_activated chat_id d = Ok false →
  ∃ d1, activate_user chat_id username now d = (Ok true, d1)
        ∧ get_user_info chat_id d1 = Ok (registration username now).
Proof.
  intros Hok Hnew. rewrite is_user_activated_users in Hnew by done.
  pose proof (activate_user_ok chat_id username now d Hok) as H.
  injection Hnew as Hnew. rewrite Hnew in H.
  destruct H as (d1 & Hact & Hus & Hok1 & _).
  exists d1. split; [done|].
  rewrite get_user_info_users by done. by rewrite Hus, assoc_set_lookup.
Qed.

Lemma activate_user_stores_record_witness :
  ∃ d1, activate_user 7 (JStr "bob") "2024-02-02T10:00:00" Fixtures.sample_disk
        = (Ok true, d1)
        ∧ get_user_info 7 d1 = Ok (registration (JStr "bob") "2024-02-02T10:00:00").
Proof.
  apply (activate_user_stores_record 7 (JStr "bob") "2024-02-02T10:00:00"
           Fixtures.sample_disk); reflexivity.
Defined.




(** X4. A registry of the shape this module writes keeps that shape under
    [activate_user]. *)
Theorem activate_user_keeps_registry_ok chat_id username now d :
  registry_ok d = true →
  registry_ok (activate_user chat_id username now d).2 = true.
Proof.
  intros Hok.
  pose proof (activate_user_ok chat_id username now d Hok) as H.
  destruct (bool_decide _).
  - by rewrite H.
  - by destruct H as (d1 & -> & _ & Hok1 & _).
Qed.

Lemma activate_user_keeps_registry_ok_witness :
  registry_ok
    (activate_user 7 (JStr "bob") "2024-02-02T10:00:00" Fixtures.sample_disk).2
  = true.
Proof.
  apply (activate_user_keeps_registry_ok 7 (JStr "bob") "2024-02-02T10:00:00"
           Fixtures.sample_disk).
  reflexivity.
Defined.



(** ** The set of activated chats *)

Section AllIds.

Variable py_int : string → option Z.

Lemma collect_ids_app l1 : ∀ l2 acc,
  collect_ids py_int (l1 ++ l2) acc
  = match collect_ids py_int l1 acc with
    | Ids ids => collect_ids py_int l2 ids
    | other => other
    end.
Proof.
  induction l1 as [|k l1 IH]; intros l2 acc; [done|].
  simpl. destruct (py_int k); [apply IH|done].
Qed.

Lemma collect_ids_spec keys : ∀ acc ids,
  collect_ids py_int keys acc = Ids ids →
  ∀ z, z ∈ ids ↔ z ∈ acc ∨ ∃ key, key ∈ keys ∧ py_int key = Some z.
Proof.
  induction keys as [|k keys IH]; intros acc ids Hc z; simpl in Hc.
  - injection Hc as <-. split; [auto|]. intros [H|(key & Hk & _)]; [done|].
    by apply elem_of_nil in Hk.
  - destruct (py_int k) as [zk|] eqn:Hk; [|done].
    rewrite (IH _ _ Hc z). rewrite elem_of_union, elem_of_singleton. split.
    + intros [[H | ->]|(key & Hin & Hkey)]; [by left| |].
      * right. exists k. split; [constructor|done].
      * right. exists key. split; [by constructor|done].
    + intros [H|(key & Hin & Hkey)]; [by left; left|].
      apply elem_of_cons in Hin as [-> | Hin].
      * left. right. congruence.
      * right. by exists key.
Qed.

Lemma assoc_Some_key k kvs : is_Some (assoc k kvs) → k ∈ map fst kvs.
Proof.
  induction kvs as [|[k' v] kvs IH]; simpl; [by intros [? ?]|].
  destruct (String.eqb k' k) eqn:E.
  - apply String.eqb_eq in E as ->. intros _. constructor.
  - intros H. constructor. by apply IH.
Qed.

Lemma assoc_set_keys_new k v kvs :
  assoc k kvs = None → map fst (assoc_set k v kvs) = map fst kvs ++ [k].
Proof.
  induction kvs as [|[k' v'] kvs IH]; simpl; [done|].
  destruct (String.eqb k' k) eqn:E; [done|].
  intros H. simpl. by rewrite IH.
Qed.

Lemma get_all_activated_chat_ids_users d :
  registry_ok d = true →
  get_all_activated_chat_ids py_int d = collect_ids py_int (map fst (users_of d)) ∅.
Proof.
  intros Hok. destruct (registry_ok_inv d Hok) as (kvs & Hl & [[Hu Hnil]|Hu]);
    unfold get_all_activated_chat_ids; rewrite Hl, Hu.
  - by rewrite Hnil.
  - reflexivity.
Qed.

(** What the set holds, and where an activated chat is found. *)
Lemma all_ids_spec d ids :
  get_all_activated_chat_ids py_int d = Ids ids →
  ∀ z, z ∈ ids ↔ ∃ key, is_Some (assoc key (users_of d)) ∧ py_int key = Some z.
Proof.
  intros Hall.
  assert (Hc : collect_ids py_int (map fst (users_of d)) ∅ = Ids ids).
  { unfold get_all_activated_chat_ids in Hall. unfold users_of.
    destruct (load_users d) as [| | | | |kvs]; try done.
    destruct (assoc "users" kvs) as [users|]; simpl in Hall |- *; [|done].
    by destruct users as [| | | | |us]. }
  intros z. rewrite (collect_ids_spec _ _ _ Hc z). split.
  - intros [H|(key & Hin & Hkey)]; [by apply elem_of_empty in H|].
    exists key. split; [|done].
    clear -Hin. induction (users_of d) as [|[k v] us IH]; simpl in *.
    + by apply elem_of_nil in Hin.
    + destruct (String.eqb k key) eqn:E; [eauto|].
      apply elem_of_cons in Hin as [-> | Hin]; [|by apply IH].
      by rewrite String.eqb_refl in E.
  - intros (key & Hin & Hkey). right. exists key.
    split; [by apply assoc_Some_key|done].
Qed.

Lemma activated_key d ids chat_id :
  get_all_activated_chat_ids py_int d = Ids ids →
  is_user_activated chat_id d = Ok true →
  is_Some (assoc (chat_key chat_id) (users_of d)).
Proof.
  unfold get_all_activated_chat_ids, users_of, is_user_activated.
  destruct (load_users d) as [| | | | |kvs]; try done.
  cbn [py_get_default obind].
  destruct (assoc "users" kvs) as [users|]; simpl.
  - destruct users as [| | | | |us]; try done. intros _.
    rewrite StorageFacts.py_in_dict. intros [= H].
    by apply bool_decide_eq_true in H.
  - done.
Qed.

Lemma activated_in_ids d ids chat_id :
  get_all_activated_chat_ids py_int d = Ids ids →
  is_user_activated chat_id d = Ok true →
  py_int (chat_key chat_id) = Some chat_id →
  chat_id ∈ ids.
Proof.
  intros Hall Htrue Hint. apply (all_ids_spec d ids Hall).
  exists (chat_key chat_id). split; [|done]. by apply (activated_key d ids).
Qed.

(** X6. When [get_all_activated_chat_ids] returns, its set holds exactly
    the integers that [int] reads off the keys of the ["users"] dict; in
    particular it holds every chat for which [is_user_activated] answers
    [True], as long as [int(str(chat_id))] is [chat_id]. *)
Theorem all_ids_cover_activated d ids :
  get_all_activated_chat_ids py_int d = Ids ids →
  (∀ z, z ∈ ids ↔ ∃ key, is_Some (assoc key (users_of d)) ∧ py_int key = Some z)
  ∧ (∀ chat_id, is_user_activated chat_id d = Ok true →
                py_int (chat_key chat_id) = Some chat_id → chat_id ∈ ids).
Proof.
  intros Hall. split.
  - by apply all_ids_spec.
  - intros chat_id. by apply activated_in_ids.
Qed.

(** X7. Activating a chat that is not registered adds exactly that chat to
    the set of activated chats. *)
Theorem activate_user_adds_id chat_id username now d ids :
  registry_ok d = true →
  is_user_activated chat_id d = Ok false →
  py_int (chat_key chat_id) = Some chat_id →
  get_all_activated_chat_ids py_int d = Ids ids →
  get_all_activated_chat_ids py_int (activate_user chat_id username now d).2
  = Ids (ids ∪ {[chat_id]}).
Proof.
  intros Hok Hnew Hint Hall.
  rewrite is_user_activated_users in Hnew by done. injection Hnew as Hnew.
  pose proof (activate_user_ok chat_id username now d Hok) as H.
  rewrite Hnew in H. destruct H as (d1 & -> & Hus & Hok1 & _). cbn [snd].
  rewrite get_all_activated_chat_ids_users in Hall |- * by done.
  rewrite Hus, assoc_set_keys_new, collect_ids_app, Hall.
  - simpl. by rewrite Hint.
  - apply bool_decide_eq_false in Hnew.
    destruct (assoc (chat_key chat_id) (users_of d)) eqn:E; [|done].
    exfalso. apply Hnew. eauto.
Qed.

End AllIds.

Lemma all_ids_cover_activated_witness :
  (∀ z, z ∈ ({[42]} : gset Z) ↔
        ∃ key, is_Some (assoc key (users_of Fixtures.sample_disk))
               ∧ Fixtures.sample_int key = Some z)
  ∧ (∀ chat_id, is_user_activated chat_id Fixtures.sample_disk = Ok true →
                Fixtures.sample_int (chat_key chat_id) = Some chat_id →
                chat_id ∈ ({[42]} : gset Z)).
Proof.
  apply (all_ids_cover_activated Fixtures.sample_int Fixtures.sample_disk {[42]}).
  vm_compute. reflexivity.
Defined.

Lemma activate_user_adds_id_witness :
  get_all_activated_chat_ids Fixtures.sample_int
    (activate_user 7 (JStr "bob") "2024-02-02T10:00:00" Fixtures.sample_disk).2
  = Ids ({[42]} ∪ {[7]}).
Proof.
  apply (activate_user_adds_id Fixtures.sample_int 7 (JStr "bob")
           "2024-02-02T10:00:00" Fixtures.sample_disk {[42]});
    vm_compute; reflexivity.
Defined.

End StorageMore.

(** ** Normalisation: values that are there *)

Module NormalizeMore.

Import GithubClient.

Lemma dict_or_falsy_get_value v k :
  dict_or_falsy v = true →
  (if truthy v then py_get v k else Ok (JStr "N/A"))
  = Ok (if truthy v then nested v k else JStr "N/A").
Proof.
  destruct v as [|b|z|s|l|kvs]; simpl; intros H;
    try (apply negb_true_iff in H; by rewrite H).
  - done.
  - by destruct kvs.
Qed.

Section Normalize.

Variable fmt : JSON → string.
Variables owner repo : JSON.

(** The record [normalize] builds from a raw alert, field by field. *)
Lemma normalize_eq alert :
  raw_alert_ok alert = true →
  normalize fmt owner repo alert
  = let advisory := nested alert "security_advisory" in
    let vulnerability := nested alert "security_vulnerability" in
    let package := nested vulnerability "package" in
    let first_patched := nested vulnerability "first_patched_version" in
    Ok {| repo_name := fmt owner +:+ "/" +:+ fmt repo;
          package_name := default (JStr "unknown") (field package "name");
          severity := default (JStr "unknown") (field advisory "severity");
          cve_id := py_or (nested advisory "cve_id") (JStr "");
          ghsa_id := py_or (nested advisory "ghsa_id") (JStr "");
          summary := default (JStr "No description") (field advisory "summary");
          vulnerable_version :=
            default (JStr "") (field vulnerability "vulnerable_version_range");
          patched_version :=
            if truthy first_patched then nested first_patched "identifier"
            else JStr "N/A";
          url := default (JStr "") (field alert "html_url");
          created_at := default (JStr "") (field alert "created_at") |}.
Proof.
  unfold raw_alert_ok.
  destruct alert as [| | | | |kvs]; try done.
  rewrite !andb_true_iff. intros [[[Hsa Hsv] Hfp] Hpk].
  destruct (NormalizeFacts.dict_or_falsy_or _ Hsa) as (adv & Eadv & Fadv).
  destruct (NormalizeFacts.dict_or_falsy_or _ Hsv) as (vul & Evul & Fvul).
  destruct (NormalizeFacts.dict_or_falsy_or _ Hpk) as (pkg & Epkg & Fpkg).
  pose proof (dict_or_falsy_get_value _ "identifier" Hfp) as Epatched.
  unfold normalize. cbn [py_get obind].
  change (default JNull (assoc "security_advisory" kvs))
    with (nested (JObj kvs) "security_advisory").
  change (default JNull (assoc "security_vulnerability" kvs))
    with (nested (JObj kvs) "security_vulnerability").
  cbn zeta.
  set (A := nested (JObj kvs) "security_advisory") in *.
  set (V := nested (JObj kvs) "security_vulnerability") in *.
  rewrite Eadv, Evul. cbn [py_get py_get_default obind].
  assert (Hnv : ∀ k, default JNull (assoc k vul) = nested V k).
  { intros k. unfold nested. by rewrite Fvul. }
  rewrite !Hnv.
  set (F := nested V "first_patched_version") in *.
  set (P := nested V "package") in *.
  rewrite Epatched. cbn [obind]. rewrite Epkg. cbn [py_get_default obind].
  unfold nested. rewrite ?Fadv, ?Fvul, ?Fpkg. reflexivity.
Qed.

(** X8. A raw alert record is normalised by copying: every source value
    that is there ends up in the alert as it is (a null or empty severity,
    summary or package name included); the two identifiers are copied when
    they are non-empty, and the patched version is the identifier of a
    non-empty first patched version. *)
Theorem normalize_copies_present alert :
  raw_alert_ok alert = true →
  ∃ a, normalize fmt owner repo alert = Ok a ∧ copies_present alert a.
Proof.
  intros Hok. rewrite (normalize_eq alert Hok). cbn zeta.
  eexists. split; [reflexivity|].
  unfold copies_present. cbn [package_name severity cve_id ghsa_id summary
    vulnerable_version patched_version url created_at].
  repeat split.
  - by intros v ->.
  - by intros v ->.
  - intros v Hv Ht. unfold nested at 1. rewrite Hv. unfold py_or. simpl.
    by rewrite Ht.
  - intros v Hv Ht. unfold nested at 1. rewrite Hv. unfold py_or. simpl.
    by rewrite Ht.
  - by intros v ->.
  - by intros v ->.
  - by intros ->.
  - by intros v ->.
  - by intros v ->.
Qed.

End Normalize.

Lemma normalize_copies_present_witness :
  ∃ a, normalize Fixtures.sample_fmt (JStr "octo") (JStr "app")
         (Fixtures.raw_full "high") = Ok a
       ∧ copies_present (Fixtures.raw_full "high") a.
Proof.
  apply (normalize_copies_present Fixtures.sample_fmt (JStr "octo") (JStr "app")
           (Fixtures.raw_full "high")).
  reflexivity.
Defined.

Example normalize_raw_full :
  normalize Fixtures.sample_fmt (JStr "octo") (JStr "app") (Fixtures.raw_full "high")
  = Ok {| repo_name := "octo/app"; package_name := JStr "lodash";
          severity := JStr "high"; cve_id := JStr "CVE-2024-0001";
          ghsa_id := JStr "GHSA-aaaa"; summary := JStr "Prototype pollution";
          vulnerable_version := JStr "< 4.17.21";
          patched_version := JStr "4.17.21";
          url := JStr "https://github.com/octo/app/security/dependabot/1";
          created_at := JStr "2024-01-01T00:00:00Z" |}.
Proof. reflexivity. Qed.

End NormalizeMore.

(** ** The pipeline: what escapes, what is kept, what is requested *)

Module PipelineMore.

Import GithubClient.

Lemma py_get_cases x k :
  (∃ v, py_get x k = Ok v) ∨ py_get x k = Raise AttributeError.
Proof. destruct x; simpl; eauto. Qed.

Lemma py_get_default_cases x k dflt :
  (∃ v, py_get_default x k dflt = Ok v) ∨ py_get_default x k dflt = Raise AttributeError.
Proof. destruct x; simpl; eauto. Qed.

Ltac step_get :=
  match goal with
  | |- context [obind (py_get ?x ?k) _] =>
      destruct (py_get_cases x k) as [[? ->]| ->]; cbn [obind]; [|done]
  | |- context [obind (py_get_default ?x ?k ?d) _] =>
      destruct (py_get_default_cases x k d) as [[? ->]| ->]; cbn [obind]; [|done]
  | |- context [obind (if truthy ?v then _ else _) _] =>
      destruct (truthy v)
  end.

Section Pipeline.

Variable srv : Server.
Variable fmt : JSON → string.
Variable token : string.

(** Normalising one record either succeeds or fails on a field access. *)
Lemma normalize_raises owner repo alert :
  match normalize fmt owner repo alert with
  | Ok _ => True
  | Raise e => e = AttributeError
  | Diverge => False
  end.
Proof. unfold normalize. repeat step_get; done. Qed.

Lemma normalize_loop_end owner repo data : ∀ acc,
  match normalize_loop fmt owner repo data acc with
  | Completed _ => True
  | Raised e _ => e = AttributeError
  | _ => False
  end.
Proof.
  induction data as [|raw rest IH]; intros acc; simpl; [done|].
  pose proof (normalize_raises owner repo raw) as H.
  destruct (normalize fmt owner repo raw); [apply IH|done|done].
Qed.

(** X9. [get_dependabot_alerts] never lets a request exception out, and
    always comes back: it returns a list, or raises the [AttributeError]
    or [TypeError] of a payload of the wrong shape. *)
Theorem fetch_raises_no_request_exception owner repo log :
  match (get_dependabot_alerts srv fmt token owner repo log).1 with
  | Ok _ => True
  | Raise e => e = AttributeError ∨ e = TypeError
  | Diverge => False
  end.
Proof.
  unfold get_dependabot_alerts, try_block, requests_get.
  destruct (srv log (alerts_request fmt token owner repo)) as [|st body]; [done|].
  destruct ((st =? 403) || (st =? 404)); [done|].
  unfold raise_for_status. destruct ((400 <=? st) && (st <? 600)); [done|].
  destruct body as [data|]; [|done]. cbn [response_json].
  destruct data as [| | |str|items|kvs]; simpl; auto;
    match goal with
    | |- context [normalize_loop fmt owner repo ?d []] =>
        pose proof (normalize_loop_end owner repo d []) as H;
        destruct (normalize_loop fmt owner repo d []); try done; subst;
        simpl; auto
    end.
Qed.

(** The bucketing loop keeps the four keys, and fails exactly on an alert
    whose severity is no string. *)
Lemma bucket_loop_dom alerts : ∀ (b b' : Buckets),
  dom b = key_set → bucket_loop alerts b = Ok b' → dom b' = key_set.
Proof.
  induction alerts as [|a rest IH]; intros b b' Hdom; simpl.
  - by intros [= <-].
  - destruct (bucket_step b a) as [b1| |] eqn:Hstep; try done. simpl.
    apply IH. by apply (BucketFacts.bucket_step_dom b b1 a).
Qed.

Lemma bucket_loop_outcome alerts : ∀ b : Buckets,
  dom b = key_set →
  match bucket_loop alerts b with
  | Ok _ => Forall (λ a, severity_is_str a = true) alerts
  | Raise e => e = AttributeError ∧ Exists (λ a, severity_is_str a = false) alerts
  | Diverge => False
  end.
Proof.
  induction alerts as [|a rest IH]; intros b Hdom; simpl; [constructor|].
  destruct (severity_is_str a) eqn:Hs.
  - destruct (BucketFacts.bucket_step_ok b a Hdom Hs) as (bucket & Hb & ->).
    simpl. specialize (IH (<[alert_key a := bucket ++ [a]]> b)).
    rewrite dom_insert_lookup_L in IH by eauto. specialize (IH Hdom).
    destruct (bucket_loop rest _) as [b'|e|]; [|destruct IH; split|]; try done.
    + by constructor.
    + by apply Exists_cons_tl.
  - unfold bucket_step. unfold severity_is_str in Hs.
    destruct (severity a) eqn:E; try done; simpl;
      (split; [done|]; apply Exists_cons_hd; unfold severity_is_str; by rewrite E).
Qed.

Lemma repos_loop_dom repos : ∀ (b b' : Buckets) log log',
  dom b = key_set →
  repos_loop srv fmt token repos b log = (Ok b', log') → dom b' = key_set.
Proof.
  induction repos as [|repo rest IH]; intros b b' log log' Hdom Hscan.
  - by injection Hscan as <- _.
  - cbn [repos_loop] in Hscan. unfold bind, lift in Hscan.
    destruct (let? o := py_index repo "owner" in py_index o "login")
      as [owner| |]; try done.
    destruct (py_index repo "name") as [name| |]; try done.
    destruct (get_dependabot_alerts srv fmt token owner name log)
      as [[alerts| |] log1]; try done.
    destruct (bucket_loop alerts b) as [b1| |] eqn:Hb; try done.
    apply (IH b1 b' log1 log'); [|done].
    by apply (bucket_loop_dom alerts b).
Qed.

(** X10. Whenever [get_all_alerts] returns, its dict has exactly the keys
    critical, high, moderate and low. *)
Theorem get_all_alerts_keys fuel log (result : Buckets) log' :
  get_all_alerts srv fmt token fuel log = (Ok result, log') →
  dom result = key_set.
Proof.
  unfold get_all_alerts, bind at 1.
  destruct (get_user_repos srv token fuel log) as [[repos| |] log0]; try done.
  apply repos_loop_dom, BucketFacts.dom_initial_buckets.
Qed.

(** X11. One alert whose severity is no string (a null severity in the
    payload) makes [get_all_alerts] raise [AttributeError]: the alerts
    gathered from the repositories before it are lost with it, and the
    repositories after it are not asked. *)
Theorem non_string_severity_aborts r1 repo r2 owner name fuel log log0
    (acc1 : Buckets) log1 alerts log2 :
  get_user_repos srv token fuel log = (Ok (r1 ++ repo :: r2), log0) →
  repos_loop srv fmt token r1 initial_buckets log0 = (Ok acc1, log1) →
  repo_owner repo = Ok owner →
  py_index repo "name" = Ok name →
  get_dependabot_alerts srv fmt token owner name log1 = (Ok alerts, log2) →
  Exists (λ a, severity_is_str a = false) alerts →
  get_all_alerts srv fmt token fuel log = (Raise AttributeError, log2).
Proof.
  intros Hlist Hr1 Ho Hn Hfetch Hex.
  unfold get_all_alerts, bind at 1. rewrite Hlist.
  rewrite AggregationFacts.repos_loop_app. unfold bind at 1. rewrite Hr1.
  cbn [repos_loop]. unfold bind, lift.
  unfold repo_owner in Ho. rewrite Ho, Hn, Hfetch.
  assert (Hdom : dom acc1 = key_set).
  { apply (repos_loop_dom r1 initial_buckets acc1 log0 log1);
      [apply BucketFacts.dom_initial_buckets|done]. }
  pose proof (bucket_loop_outcome alerts acc1 Hdom) as Hout.
  destruct (bucket_loop alerts acc1) as [b'|e|]; [|by destruct Hout as [-> _]|done].
  exfalso. apply Exists_exists in Hex as (a & Hin & Hs).
  rewrite Forall_forall in Hout. specialize (Hout a Hin). congruence.
Qed.

(** Each round of the scan issues the one request of its repository. *)
Lemma repos_loop_requests repos : ∀ (b result : Buckets) log log',
  repos_loop srv fmt token repos b log = (Ok result, log') →
  ∃ reqs, log' = log ++ reqs
          ∧ Forall2 (λ repo r, ∃ owner name,
                       repo_owner repo = Ok owner
                       ∧ py_index repo "name" = Ok name
                       ∧ r = alerts_request fmt token owner name) repos reqs.
Proof.
  induction repos as [|repo rest IH]; intros b result log log' Hscan.
  - injection Hscan as _ <-. exists []. split; [by rewrite app_nil_r|constructor].
  - cbn [repos_loop] in Hscan. unfold bind, lift in Hscan.
    destruct (let? o := py_index repo "owner" in py_index o "login")
      as [owner| |] eqn:Ho; try done.
    destruct (py_index repo "name") as [name| |] eqn:Hn; try done.
    pose proof (AggregationFacts.get_dependabot_alerts_log srv fmt token
                  owner name log) as Hlog.
    destruct (get_dependabot_alerts srv fmt token owner name log)
      as [[alerts| |] log1]; try done.
    destruct (bucket_loop alerts b) as [b1| |]; try done.
    destruct (IH _ _ _ _ Hscan) as (reqs & -> & Hall).
    simpl in Hlog. subst log1.
    exists (alerts_request fmt token owner name :: reqs).
    split; [by rewrite <- app_assoc|].
    constructor; [|done]. by exists owner, name.
Qed.

(** X12. When [get_all_alerts] returns, it has issued, after the listing
    requests, exactly one alerts request per listed repository, in listing
    order, each built from that repository's owner login and name. *)
Theorem get_all_alerts_requests fuel log repos log0 (result : Buckets) log' :
  get_user_repos srv token fuel log = (Ok repos, log0) →
  get_all_alerts srv fmt token fuel log = (Ok result, log') →
  ∃ reqs, log' = log0 ++ reqs
          ∧ length reqs = length repos
          ∧ Forall2 (λ repo r, ∃ owner name,
                       repo_owner repo = Ok owner
                       ∧ py_index repo "name" = Ok name
                       ∧ r = alerts_request fmt token owner name) repos reqs.
Proof.
  intros Hlist. unfold get_all_alerts, bind at 1. rewrite Hlist. intros Hscan.
  destruct (repos_loop_requests _ _ _ _ _ Hscan) as (reqs & -> & Hall).
  exists reqs. split; [done|]. split; [|done].
  symmetry. by apply (Forall2_length _ _ _ Hall).
Qed.

End Pipeline.

Lemma get_all_alerts_keys_witness : dom Fixtures.github_result.1 = key_set.
Proof.
  apply (get_all_alerts_keys Fixtures.github Fixtures.sample_fmt "tok" 2 []
           Fixtures.github_result.1 Fixtures.github_result.2).
  vm_compute. reflexivity.
Defined.

Lemma non_string_severity_aborts_witness :
  get_all_alerts Fixtures.github_null_severity Fixtures.sample_fmt "tok" 2 []
  = (Raise AttributeError, Fixtures.null_severity_fetch.2).
Proof.
  apply (non_string_severity_aborts Fixtures.github_null_severity
           Fixtures.sample_fmt "tok"
           [Fixtures.mk_repo "octo" "app"] (Fixtures.mk_repo "octo" "lib")
           [Fixtures.mk_repo "octo" "old"] (JStr "octo") (JStr "lib") 2 []
           (page_requests "tok" 1 2) Fixtures.after_app.1 Fixtures.after_app.2
           Fixtures.null_severity_fetch.1 Fixtures.null_severity_fetch.2).
  - vm_compute. reflexivity.
  - vm_compute. reflexivity.
  - reflexivity.
  - reflexivity.
  - vm_compute. reflexivity.
  - vm_compute. constructor. reflexivity.
Defined.

Lemma get_all_alerts_requests_witness :
  ∃ reqs, Fixtures.github_result.2 = page_requests "tok" 1 2 ++ reqs
          ∧ length reqs = length Fixtures.three_repos
          ∧ Forall2 (λ repo r, ∃ owner name,
                       repo_owner repo = Ok owner
                       ∧ py_index repo "name" = Ok name
                       ∧ r = alerts_request Fixtures.sample_fmt "tok" owner name)
              Fixtures.three_repos reqs.
Proof.
  apply (get_all_alerts_requests Fixtures.github Fixtures.sample_fmt "tok" 2 []
           Fixtures.three_repos (page_requests "tok" 1 2)
           Fixtures.github_result.1 Fixtures.github_result.2).
  - vm_compute. reflexivity.
  - vm_compute. reflexivity.
Defined.

End PipelineMore.

(** ** The report: the all-clear message and the size of a report *)

Module RenderMore.

Import GithubClient.

Lemma sum_list_with_zero {A} (f : A → nat) (l : list A) :
  Forall (λ x, f x = 0%nat) l → sum_list_with f l = 0%nat.
Proof. induction 1 as [|x l Hx _ IH]; simpl; [done|]. by rewrite Hx, IH. Qed.

Lemma total_alerts_zero (alerts : Buckets) :
  total_alerts alerts = 0%nat ↔ ∀ k l, alerts !! k = Some l → l = [].
Proof.
  split.
  - intros Hz k l Hk.
    pose proof (RenderFacts.total_alerts_bucket alerts k l Hk) as Hle.
    destruct l; [done|]. simpl in Hle. lia.
  - intros Hall. unfold total_alerts. apply sum_list_with_zero.
    apply Forall_forall. intros [k l] Hin.
    apply elem_of_map_to_list in Hin. by rewrite (Hall k l Hin).
Qed.

Section Render.

Variable fmt : JSON → string.

Lemma report_is_not_all_clear (alerts : Buckets) :
  join nl (report_lines fmt alerts) ≠ all_clear.
Proof.
  rewrite RenderFacts.report_lines_sections. unfold report_head, all_clear.
  cbn [app join]. intros H. discriminate H.
Qed.

(** X13. The report is the all-clear message exactly when every bucket of
    the dict is empty; with any alert in any bucket it is a report with
    the head lines. *)
Theorem all_clear_iff (alerts : Buckets) :
  format_alerts_report fmt alerts = all_clear
  ↔ ∀ k l, alerts !! k = Some l → l = [].
Proof.
  rewrite <- total_alerts_zero. unfold format_alerts_report.
  destruct (total_alerts alerts) as [|n] eqn:E; simpl.
  - done.
  - split; [|done]. intros H. by apply report_is_not_all_clear in H.
Qed.





End Render.

End RenderMore.

(** ** The command handlers *)

Module BotFacts.

Import Storage GithubClient Bot.

(** A chat that [is_user_activated] has just found missing is never
    reported as registered by [activate_user], whatever the file holds. *)
Lemma activate_user_not_false chat_id username now d :
  is_user_activated chat_id d = Ok false →
  (activate_user chat_id username now d).1 ≠ Ok false.
Proof.
  unfold is_user_activated.
  destruct (load_users d) as [| | | | |kvs] eqn:Hl; try done.
  cbn [py_get_default obind]. intros Hin.
  rewrite (StorageFacts.activate_user_dict chat_id username now d kvs Hl).
  cbn zeta. destruct (assoc "users" kvs) as [users|] eqn:Hu.
  - rewrite Hu.
    change (py_in (chat_key chat_id) users = Ok false) in Hin.
    destruct users as [| | |str|l|us]; try done.
    + rewrite Hin. done.
    + rewrite Hin. done.
    + rewrite StorageFacts.py_in_dict in Hin. injection Hin as Hin.
      rewrite Hin. done.
  - rewrite assoc_set_lookup. unfold empty_dict. cbn [assoc].
    rewrite bool_decide_eq_false_2 by (by intros [? ?]). done.
Qed.

Section Handlers.

Variable srv : Server.
Variable fmt : JSON → string.
Variable GITHUB_TOKEN : string.
Variable ACTIVATION_TOKEN : option string.
Variable exn_text : Exn → string.

(** X15. [activate_command] changes the registry file only for a chat that
    is not activated and that sends exactly one argument, equal to
    [ACTIVATION_TOKEN]; with the variable unset nobody is activated. *)
Theorem activate_command_needs_token chat_id user args now d :
  (activate_command ACTIVATION_TOKEN chat_id user args now d).2 ≠ d →
  ∃ token, args = [token] ∧ ACTIVATION_TOKEN = Some token
           ∧ is_user_activated chat_id d = Ok false.
Proof.
  unfold activate_command.
  destruct (is_user_activated chat_id d) as [[|]| |]; try (simpl; congruence).
  destruct args as [|token [|? ?]]; try (simpl; congruence).
  case_bool_decide as Htok; [simpl; congruence|].
  intros _. exists token. split; [done|]. split; [|done].
  destruct (decide (Some token = ACTIVATION_TOKEN)) as [Heq|Hne]; [done|].
  by destruct Htok.
Qed.

(** X16. The right token from a chat that is not activated, on a registry
    of the shape [storage.py] writes: the handler confirms the activation,
    the registry then holds the chat with [username or first_name] and the
    time of the call, and [status_command] shows that time and the chat. *)
Theorem activate_command_then_status chat_id user token now d :
  registry_ok d = true →
  is_user_activated chat_id d = Ok false →
  ACTIVATION_TOKEN = Some token →
  ∃ d1, activate_command ACTIVATION_TOKEN chat_id user [token] now d
        = (Ok [plain activation_done_text], d1)
        ∧ is_user_activated chat_id d1 = Ok true
        ∧ get_user_info chat_id d1
          = Ok (registration (JStr (display_name user)) now)
        ∧ status_command fmt chat_id d1
          = Ok [markdown (status_text fmt (JStr now) chat_id)].
Proof.
  intros Hok Hnew Htok. unfold activate_command. rewrite Hnew.
  rewrite bool_decide_eq_false_2 by (intros H; by apply H).
  pose proof (StorageMore.activate_user_ok chat_id
                (JStr (display_name user)) now d Hok) as H.
  rewrite StorageMore.is_user_activated_users in Hnew by done.
  injection Hnew as Hnew. rewrite Hnew in H.
  destruct H as (d1 & -> & Hus & Hok1 & _).
  exists d1. split; [done|].
  assert (Hact : is_user_activated chat_id d1 = Ok true).
  { rewrite StorageMore.is_user_activated_users by done.
    rewrite Hus, assoc_set_lookup. by rewrite bool_decide_eq_true_2 by eauto. }
  assert (Hinfo : get_user_info chat_id d1
                  = Ok (registration (JStr (display_name user)) now)).
  { rewrite StorageMore.get_user_info_users by done.
    by rewrite Hus, assoc_set_lookup. }
  split; [done|]. split; [done|].
  unfold status_command. rewrite Hact. cbn [obind negb]. rewrite Hinfo.
  reflexivity.
Qed.

(** X17. The answer of [activate_command] for a chat that [activate_user]
    reports as registered before is never sent: the handler calls
    [activate_user] only after [is_user_activated] has answered [False],
    and then [activate_user] returns [True] or raises. *)
Theorem activated_before_never_sent chat_id user args now d :
  (activate_command ACTIVATION_TOKEN chat_id user args now d).1
  ≠ Ok [plain activated_before_text].
Proof.
  unfold activate_command.
  destruct (is_user_activated chat_id d) as [[|]| |] eqn:Hact; try done.
  destruct args as [|token [|? ?]]; try done.
  case_bool_decide; [done|].
  pose proof (activate_user_not_false chat_id (JStr (display_name user)) now d
                Hact) as Hnf.
  destruct (activate_user chat_id (JStr (display_name user)) now d)
    as [[[|]| |] d']; done.
Qed.

(** X18. [update_command] sends requests to GitHub only for a chat that is
    activated. *)
Theorem update_command_needs_activation chat_id fuel d log :
  (update_command srv fmt GITHUB_TOKEN exn_text chat_id fuel d log).2 ≠ log →
  is_user_activated chat_id d = Ok true.
Proof.
  unfold update_command.
  destruct (is_user_activated chat_id d) as [[|]| |]; simpl; congruence.
Qed.


End Handlers.

Lemma activate_command_needs_token_witness :
  ∃ token, ["secret"] = [token] ∧ Some "secret" = Some token
           ∧ is_user_activated 7 Fixtures.sample_disk = Ok false.
Proof.
  apply (activate_command_needs_token (Some "secret") 7 Fixtures.sample_user
           ["secret"] "2024-02-02T10:00:00" Fixtures.sample_disk).
  intros H. apply (f_equal writes) in H. vm_compute in H. discriminate H.
Defined.

Lemma activate_command_then_status_witness :
  ∃ d1, activate_command (Some "secret") 7 Fixtures.sample_user ["secret"]
          "2024-02-02T10:00:00" Fixtures.sample_disk
        = (Ok [plain activation_done_text], d1)
        ∧ is_user_activated 7 d1 = Ok true
        ∧ get_user_info 7 d1 = Ok (registration (JStr "Bob") "2024-02-02T10:00:00")
        ∧ status_command Fixtures.sample_fmt 7 d1
          = Ok [markdown (status_text Fixtures.sample_fmt
                            (JStr "2024-02-02T10:00:00") 7)].
Proof.
  apply (activate_command_then_status Fixtures.sample_fmt (Some "secret") 7
           Fixtures.sample_user "secret" "2024-02-02T10:00:00"
           Fixtures.sample_disk); reflexivity.
Defined.

Lemma update_command_needs_activation_witness :
  is_user_activated 42 Fixtures.sample_disk = Ok true.
Proof.
  apply (update_command_needs_activation Fixtures.github Fixtures.sample_fmt
           "tok" Fixtures.sample_exn_text 42 2 Fixtures.sample_disk []).
  intros H. apply (f_equal (@length Request)) in H. vm_compute in H.
  discriminate H.
Defined.


(** The chat of the sample registry asks for an update. *)
Example update_command_sample :
  (update_command Fixtures.github Fixtures.sample_fmt "tok"
     Fixtures.sample_exn_text 42 2 Fixtures.sample_disk []).1
  = Ok [plain progress_text;
        report_reply (format_alerts_report Fixtures.sample_fmt
                        Fixtures.github_result.1)].
Proof. vm_compute. reflexivity. Qed.

(** A stranger is turned away and GitHub is not asked. *)
Example update_command_stranger :
  update_command Fixtures.github Fixtures.sample_fmt "tok"
    Fixtures.sample_exn_text 7 2 Fixtures.sample_disk []
  = (Ok [markdown update_locked_text], []).
Proof. reflexivity. Qed.

End BotFacts.

(** ** The daily job *)

Module DailyJobFacts.

Import Storage GithubClient DailyJob.

Section Job.

Variable srv : Server.
Variable fmt : JSON → string.
Variable py_int : string → option Z.
Variables TELEGRAM_BOT_TOKEN GITHUB_TOKEN : option string.

(** X20. When the daily job sends, it has run the pipeline once with the
    GitHub token, and every chat for which [is_user_activated] answers
    [True] is handed the report of that run (as long as
    [int(str(chat_id))] is [chat_id]); nobody is handed anything else. *)
Theorem daily_report_reaches_activated fuel d log messages log' :
  send_daily_report srv fmt py_int TELEGRAM_BOT_TOKEN GITHUB_TOKEN fuel d log
  = (Sent messages, log') →
  ∃ token alerts,
    GITHUB_TOKEN = Some token
    ∧ get_all_alerts srv fmt token fuel log = (Ok alerts, log')
    ∧ (∀ chat_id, is_user_activated chat_id d = Ok true →
                  py_int (chat_key chat_id) = Some chat_id →
                  messages !! chat_id = Some (format_alerts_report fmt alerts))
    ∧ (∀ chat_id text, messages !! chat_id = Some text →
                       text = format_alerts_report fmt alerts).
Proof.
  unfold send_daily_report.
  destruct (token_missing TELEGRAM_BOT_TOKEN); [done|].
  destruct GITHUB_TOKEN as [token|]; [|done].
  destruct (token_missing (Some token)); [done|]. cbn [orb].
  change (default "" (Some token)) with token.
  destruct (get_all_activated_chat_ids py_int d) as [ids| |] eqn:Hids; try done.
  case_bool_decide; [done|].
  destruct (get_all_alerts srv fmt token fuel log) as [[alerts| |] log1]
    eqn:Hrun; try done.
  intros Hsent. injection Hsent as <- <-.
  exists token, alerts. split; [done|]. split; [done|]. split.
  - intros chat_id Hact Hint. apply lookup_gset_to_gmap_Some. split; [|done].
    by apply (StorageMore.activated_in_ids py_int d ids chat_id).
  - intros chat_id text Hm. by apply lookup_gset_to_gmap_Some in Hm as [_ <-].
Qed.

(** X21. The daily job sends requests to GitHub only when both tokens are
    set and the registry names at least one chat. *)
Theorem daily_job_requests_only_when_needed fuel d log :
  (send_daily_report srv fmt py_int TELEGRAM_BOT_TOKEN GITHUB_TOKEN fuel d log).2
  ≠ log →
  token_missing TELEGRAM_BOT_TOKEN = false
  ∧ token_missing GITHUB_TOKEN = false
  ∧ ∃ ids, get_all_activated_chat_ids py_int d = Ids ids ∧ ids ≠ ∅.
Proof.
  unfold send_daily_report.
  destruct (token_missing TELEGRAM_BOT_TOKEN); [simpl; congruence|].
  destruct (token_missing GITHUB_TOKEN); [simpl; congruence|]. cbn [orb].
  destruct (get_all_activated_chat_ids py_int d) as [ids| |];
    try (simpl; congruence).
  case_bool_decide; [simpl; congruence|]. intros _. eauto.
Qed.

End Job.

Lemma daily_report_reaches_activated_witness :
  ∃ token alerts,
    Some "tok" = Some token
    ∧ get_all_alerts Fixtures.github Fixtures.sample_fmt token 2 []
      = (Ok alerts, Fixtures.daily_messages.2)
    ∧ (∀ chat_id, is_user_activated chat_id Fixtures.sample_disk = Ok true →
                  Fixtures.sample_int (chat_key chat_id) = Some chat_id →
                  Fixtures.daily_messages.1 !! chat_id
                  = Some (format_alerts_report Fixtures.sample_fmt alerts))
    ∧ (∀ chat_id text, Fixtures.daily_messages.1 !! chat_id = Some text →
                       text = format_alerts_report Fixtures.sample_fmt alerts).
Proof.
  apply (daily_report_reaches_activated Fixtures.github Fixtures.sample_fmt
           Fixtures.sample_int (Some "bot-token") (Some "tok") 2
           Fixtures.sample_disk [] Fixtures.daily_messages.1
           Fixtures.daily_messages.2).
  vm_compute. reflexivity.
Defined.

Lemma daily_job_requests_only_when_needed_witness :
  token_missing (Some "bot-token") = false
  ∧ token_missing (Some "tok") = false
  ∧ ∃ ids, get_all_activated_chat_ids Fixtures.sample_int Fixtures.sample_disk
           = Ids ids ∧ ids ≠ ∅.
Proof.
  apply (daily_job_requests_only_when_needed Fixtures.github Fixtures.sample_fmt
           Fixtures.sample_int (Some "bot-token") (Some "tok") 2
           Fixtures.sample_disk []).
  intros H. apply (f_equal (@length Request)) in H. vm_compute in H.
  discriminate H.
Defined.

(** With no storage file the job asks nothing and sends nothing. *)
Example daily_job_without_registry :
  send_daily_report Fixtures.github Fixtures.sample_fmt Fixtures.sample_int
    (Some "bot-token") (Some "tok") 2 {| file := NoFile; writes := 0 |} []
  = (NoUsers, []).
Proof. reflexivity. Qed.

End DailyJobFacts.
